(** * c10d::ProcessGroup: backend registry, device binding and barrier buffers

    A shallow embedding of [torch/csrc/distributed/c10d/ProcessGroup.hpp].
    The group object is a record of its data members; the backend
    instances it refers to through [c10::intrusive_ptr<Backend>] live in a
    store of their own, so that two map entries holding the same pointer
    alias one object.  Member functions are computations in a small state
    monad whose results distinguish a normal return, a thrown exception
    and undefined behaviour. *)

From stdpp Require Import base gmap strings.
From Stdlib Require Import ZArith.

Local Open Scope Z_scope.

(** ** Types declared outside the header *)

Module c10.

(** Modelled from the spec: the device kind [c10::DeviceType] is declared
    in c10, outside the sources at hand.  The header names [CPU] and
    [CUDA]; every other kind is kept apart by its enumerator code. *)
Inductive DeviceType :=
  | CPU
  | CUDA
  | OtherDeviceType (code : nat).

#[export] Instance DeviceType_eq_dec : EqDecision DeviceType.
Proof. solve_decision. Defined.

Definition DeviceType_encode (t : DeviceType) : nat :=
  match t with
  | CPU => 0%nat
  | CUDA => 1%nat
  | OtherDeviceType c => S (S c)
  end.

Definition DeviceType_decode (n : nat) : DeviceType :=
  match n with
  | O => CPU
  | S O => CUDA
  | S (S c) => OtherDeviceType c
  end.

#[export] Instance DeviceType_countable : Countable DeviceType.
Proof.
  apply (inj_countable' DeviceType_encode DeviceType_decode).
  by intros [| |c].
Defined.

(** Modelled from the spec: [c10::Device] is a device kind together with
    a device index; the comment on [getDeviceTypes] fixes the default
    index of a device built from a kind alone as -1, and a device "has an
    index" when its index is not that default. *)
Record Device := mkDevice { type_ : DeviceType; index_ : Z }.

#[export] Instance Device_eq_dec : EqDecision Device.
Proof. solve_decision. Defined.

Definition Device_of_type (t : DeviceType) : Device :=
  {| type_ := t; index_ := -1 |}.

Definition has_index (d : Device) : bool := bool_decide (index_ d ≠ -1).

End c10.
Export c10.

Module at_.

(** Modelled from the spec: the element types are declared with the
    tensor library; the header names [kByte] only. *)
Inductive ScalarType := kByte.

(** Modelled from the spec: the tensor representation is external; a
    buffer is recorded by what [at::empty] was asked for, its shape and
    its [TensorOptions] (device and element type, when given). *)
Record TensorOptions := mkTensorOptions {
  opt_device : option Device;
  opt_dtype : option ScalarType
}.

Definition TensorOptions_default : TensorOptions :=
  {| opt_device := None; opt_dtype := None |}.

Definition with_device (d : Device) (o : TensorOptions) : TensorOptions :=
  {| opt_device := Some d; opt_dtype := opt_dtype o |}.

Definition with_dtype (t : ScalarType) (o : TensorOptions) : TensorOptions :=
  {| opt_device := opt_device o; opt_dtype := Some t |}.

Record Tensor := mkTensor { sizes : list Z; options : TensorOptions }.

Definition empty (shape : list Z) (o : TensorOptions) : Tensor :=
  {| sizes := shape; options := o |}.

(** The device a buffer was requested on ([None] when the options name
    none). *)
Definition device_of (t : Tensor) : option Device := opt_device (options t).

End at_.

(** ** Data of the header *)

(** [ProcessGroup::Options]: the timeout in milliseconds and the backend
    name. *)
Record Options := mkOptions { timeout : Z; backend : string }.

Inductive BackendType :=
  | UNDEFINED
  | GLOO
  | NCCL
  | UCC
  | MPI
  | CUSTOM.

Definition BackendType_value (b : BackendType) : nat :=
  match b with
  | UNDEFINED => 0 | GLOO => 1 | NCCL => 2 | UCC => 3 | MPI => 4 | CUSTOM => 5
  end%nat.

Definition BackendType_of_value (n : nat) : BackendType :=
  match n with
  | 1 => GLOO | 2 => NCCL | 3 => UCC | 4 => MPI | 5 => CUSTOM | _ => UNDEFINED
  end%nat.

#[export] Instance BackendType_eq_dec : EqDecision BackendType.
Proof. solve_decision. Defined.

#[export] Instance BackendType_countable : Countable BackendType.
Proof.
  apply (inj_countable' BackendType_value BackendType_of_value).
  by intros [].
Defined.

(** Modelled from the spec: [BarrierOptions] is declared with the other
    option structs, outside the header; the header reads its [device_ids],
    its [timeout] and its optional [device]. *)
Record BarrierOptions := mkBarrierOptions {
  device_ids : list Z;
  barrier_timeout : Z;
  device : option Device
}.

(** A [c10::intrusive_ptr<Backend>] is the address of a backend object;
    an address that holds no object stands for a null pointer. *)
Definition ptr := positive.

(** Modelled from the spec: of the backend interface, declared outside the
    header, the group reads and writes the optional bound device; the
    sequence counter is the state the sequence-number methods work on. *)
Record Backend := mkBackend {
  backend_bound_device_id_ : option Device;
  sequenceNum_ : Z
}.

(** The data members of [ProcessGroup] that the member functions defined
    in the header read or write.  ([store_], [pg_desc_] and
    [dist_debug_level_] are touched only by functions defined elsewhere.) *)
Record ProcessGroup := mkProcessGroup {
  rank_ : Z;
  size_ : Z;
  options_ : Options;
  backendType_ : BackendType;
  deviceTypes_ : gset DeviceType;
  deviceTypeToBackendType_ : gmap DeviceType BackendType;
  deviceTypeToBackend_ : gmap DeviceType ptr;
  backendTypeToBackend_ : gmap BackendType ptr;
  bound_device_id_ : option Device
}.

(** The state a member function runs in: the group itself and the backend
    objects reachable through pointers. *)
Record State := mkState {
  this : ProcessGroup;
  backends : gmap ptr Backend
}.

(** ** Results and the state monad *)

(** The arguments of a [TORCH_CHECK] message, before they are streamed
    into one string. *)
Inductive msg_arg :=
  | MStr (s : string)
  | MBackendType (b : BackendType).

Inductive exn :=
  | c10_Error (msg : list msg_arg)
  | out_of_range
  | bad_optional_access.

Inductive ub :=
  | AbsentOptionalValue
  | NullPointer
  | NoReturnValue.

Inductive result (A : Type) :=
  | Ok (a : A)
  | Throw (e : exn)
  | Undefined (u : ub).
Arguments Ok {A} a.
Arguments Throw {A} e.
Arguments Undefined {A} u.

(** A computation returns the state it stopped in, together with its
    result; after [Throw] that is the state the exception leaves behind,
    after [Undefined] the state at the offending access. *)
Definition M (A : Type) : Type := State → State * result A.

#[export] Instance M_ret : MRet M := λ A a s, (s, Ok a).

#[export] Instance M_bind : MBind M := λ A B f m s,
  match m s with
  | (s', Ok a) => f a s'
  | (s', Throw e) => (s', Throw e)
  | (s', Undefined u) => (s', Undefined u)
  end.

Definition throw {A} (e : exn) : M A := λ s, (s, Throw e).
Definition undefined {A} (u : ub) : M A := λ s, (s, Undefined u).
Definition gets {A} (f : ProcessGroup → A) : M A := λ s, (s, Ok (f (this s))).
Definition modify (f : ProcessGroup → ProcessGroup) : M unit :=
  λ s, ({| this := f (this s); backends := backends s |}, Ok tt).

(** [TORCH_CHECK(cond, args...)] *)
Definition TORCH_CHECK (cond : bool) (msg : list msg_arg) : M unit :=
  if cond then mret tt else throw (c10_Error msg).

(** [std::unordered_map::at] *)
Definition at_key `{Countable K} {V} (m : gmap K V) (k : K) : M V :=
  match m !! k with
  | Some v => mret v
  | None => throw out_of_range
  end.

(** [m.find(k) != m.end()] *)
Definition found `{Countable K} {V} (m : gmap K V) (k : K) : bool :=
  bool_decide (is_Some (m !! k)).

(** [*opt] on an optional: undefined when the optional is empty. *)
Definition deref_optional {A} (o : option A) : M A :=
  match o with
  | Some a => mret a
  | None => undefined AbsentOptionalValue
  end.

(** [opt.value()] *)
Definition value {A} (o : option A) : M A :=
  match o with
  | Some a => mret a
  | None => throw bad_optional_access
  end.

(** [p->...]: reading the object behind a pointer. *)
Definition load (p : ptr) : M Backend := λ s,
  match backends s !! p with
  | Some b => (s, Ok b)
  | None => (s, Undefined NullPointer)
  end.

Definition store (p : ptr) (b : Backend) : M unit := λ s,
  ({| this := this s; backends := <[p := b]> (backends s) |}, Ok tt).

(** ** Backend: bound device *)

(** Modelled from the spec: [Backend::getBoundDeviceId], declared outside
    the header, reports the optional device the backend is bound to. *)
Definition Backend_getBoundDeviceId (p : ptr) : M (option Device) :=
  b ← load p; mret (backend_bound_device_id_ b).

(** Modelled from the spec: [Backend::setBoundDeviceId], declared outside
    the header, binds the backend to the optional device it is given. *)
Definition Backend_setBoundDeviceId (p : ptr) (d : option Device) : M unit :=
  b ← load p;
  store p {| backend_bound_device_id_ := d; sequenceNum_ := sequenceNum_ b |}.

(** ** Field updates *)

Definition set_deviceTypes (f : gset DeviceType → gset DeviceType)
    (g : ProcessGroup) : ProcessGroup :=
  {| rank_ := rank_ g; size_ := size_ g; options_ := options_ g;
     backendType_ := backendType_ g;
     deviceTypes_ := f (deviceTypes_ g);
     deviceTypeToBackendType_ := deviceTypeToBackendType_ g;
     deviceTypeToBackend_ := deviceTypeToBackend_ g;
     backendTypeToBackend_ := backendTypeToBackend_ g;
     bound_device_id_ := bound_device_id_ g |}.

Definition set_deviceTypeToBackendType
    (f : gmap DeviceType BackendType → gmap DeviceType BackendType)
    (g : ProcessGroup) : ProcessGroup :=
  {| rank_ := rank_ g; size_ := size_ g; options_ := options_ g;
     backendType_ := backendType_ g;
     deviceTypes_ := deviceTypes_ g;
     deviceTypeToBackendType_ := f (deviceTypeToBackendType_ g);
     deviceTypeToBackend_ := deviceTypeToBackend_ g;
     backendTypeToBackend_ := backendTypeToBackend_ g;
     bound_device_id_ := bound_device_id_ g |}.

Definition set_deviceTypeToBackend
    (f : gmap DeviceType ptr → gmap DeviceType ptr)
    (g : ProcessGroup) : ProcessGroup :=
  {| rank_ := rank_ g; size_ := size_ g; options_ := options_ g;
     backendType_ := backendType_ g;
     deviceTypes_ := deviceTypes_ g;
     deviceTypeToBackendType_ := deviceTypeToBackendType_ g;
     deviceTypeToBackend_ := f (deviceTypeToBackend_ g);
     backendTypeToBackend_ := backendTypeToBackend_ g;
     bound_device_id_ := bound_device_id_ g |}.

Definition set_backendTypeToBackend
    (f : gmap BackendType ptr → gmap BackendType ptr)
    (g : ProcessGroup) : ProcessGroup :=
  {| rank_ := rank_ g; size_ := size_ g; options_ := options_ g;
     backendType_ := backendType_ g;
     deviceTypes_ := deviceTypes_ g;
     deviceTypeToBackendType_ := deviceTypeToBackendType_ g;
     deviceTypeToBackend_ := deviceTypeToBackend_ g;
     backendTypeToBackend_ := f (backendTypeToBackend_ g);
     bound_device_id_ := bound_device_id_ g |}.

Definition set_bound_device_id (d : option Device)
    (g : ProcessGroup) : ProcessGroup :=
  {| rank_ := rank_ g; size_ := size_ g; options_ := options_ g;
     backendType_ := backendType_ g;
     deviceTypes_ := deviceTypes_ g;
     deviceTypeToBackendType_ := deviceTypeToBackendType_ g;
     deviceTypeToBackend_ := deviceTypeToBackend_ g;
     backendTypeToBackend_ := backendTypeToBackend_ g;
     bound_device_id_ := d |}.

(** ** Member functions that do not call into a backend's virtual methods *)

Definition getRank : M Z := gets rank_.

Definition getSize : M Z := gets size_.

Definition getBackendName : M string := gets (λ g, backend (options_ g)).

Definition getBackendType : M BackendType := gets backendType_.

Definition getOptions : M Options := gets options_.

Definition hasBackends : M bool :=
  gets (λ g, bool_decide (deviceTypeToBackendType_ g ≠ ∅)).

Definition setBackend (deviceType : DeviceType) (backendType : BackendType)
    (backend : option ptr) : M unit :=
  modify (set_deviceTypeToBackendType <[deviceType := backendType]>);;
  modify (set_deviceTypes (λ ds, {[deviceType]} ∪ ds));;
  registered ← gets (λ g, found (backendTypeToBackend_ g) backendType);
  if registered : bool then
    m ← gets backendTypeToBackend_;
    existingBackend ← at_key m backendType;
    modify (set_deviceTypeToBackend <[deviceType := existingBackend]>);;
    lhs ← Backend_getBoundDeviceId existingBackend;
    supplied ← deref_optional backend;
    rhs ← Backend_getBoundDeviceId supplied;
    TORCH_CHECK (bool_decide (lhs = rhs)) []
  else
    if bool_decide (is_Some backend) then
      v ← value backend;
      modify (set_deviceTypeToBackend <[deviceType := v]>);;
      v' ← value backend;
      modify (set_backendTypeToBackend <[backendType := v']>);;
      supplied ← deref_optional backend;
      bound ← gets bound_device_id_;
      Backend_setBoundDeviceId supplied bound
    else mret tt.

Definition getDefaultBackend : M ptr :=
  g ← gets id;
  name ← getBackendName;
  TORCH_CHECK (found (backendTypeToBackend_ g) (backendType_ g))
    [MStr "Could not find the default backend type ";
     MBackendType (backendType_ g);
     MStr " for Process Group with name ";
     MStr name;
     MStr "."];;
  at_key (backendTypeToBackend_ g) (backendType_ g).

(** [getBackend(BackendType)] *)
Definition getBackend (backendType : BackendType) : M ptr :=
  m ← gets backendTypeToBackend_;
  TORCH_CHECK (found m backendType)
    [MStr "Could not find backend type ";
     MBackendType backendType;
     MStr "."];;
  at_key m backendType.

(** The identifier of a backend is its address. *)
Definition getBackendID (backend_type : BackendType) : M Z :=
  p ← getBackend backend_type; mret (Z.pos p).

Definition getDeviceTypes : M (list Device) :=
  gets (λ g, Device_of_type <$> elements (deviceTypes_ g)).

Definition getBoundDeviceId : M (option Device) := gets bound_device_id_.

Definition setBoundDeviceId (device : option Device) : M unit :=
  match device with
  | Some d => TORCH_CHECK (has_index d) [MStr "setBoundDeviceId must have an index"]
  | None => mret tt
  end;;
  modify (set_bound_device_id device).

(** Modelled from the spec: [getBackend(DeviceType)] is declared in the
    header and defined elsewhere.  It resolves the device type through
    [deviceTypeToBackendType_] and then [backendTypeToBackend_], and fails
    (not found) for a device type that was never registered; the wording
    of the message is not fixed. *)
Definition getBackend_deviceType (deviceType : DeviceType) : M ptr :=
  g ← gets id;
  match deviceTypeToBackendType_ g !! deviceType with
  | None => throw (c10_Error [])
  | Some backendType =>
      match backendTypeToBackend_ g !! backendType with
      | None => throw (c10_Error [])
      | Some p => mret p
      end
  end.

(** ** Calls through the operation dispatcher *)

(** What a member function hands to [op.call] besides [this]. *)
Record OpCall := mkOpCall {
  schema : string;
  call_tensor : at_.Tensor;
  call_device_ids : list Z;
  call_timeout : Z;
  call_wait_all_ranks : option bool
}.

(** The buffer [barrier] allocates. *)
Definition barrier_tensor (g : ProcessGroup) (opts : BarrierOptions) : at_.Tensor :=
  match device opts with
  | Some d =>
      at_.empty [1] (at_.with_dtype at_.kByte (at_.with_device d at_.TensorOptions_default))
  | None =>
      if bool_decide (backendType_ g = NCCL) then
        at_.empty [1]
          (at_.with_dtype at_.kByte
             (at_.with_device (Device_of_type CUDA) at_.TensorOptions_default))
      else
        at_.empty [1]
          (at_.with_dtype at_.kByte
             (at_.with_device (Device_of_type CPU) at_.TensorOptions_default))
  end.

Definition barrier_call (g : ProcessGroup) (opts : BarrierOptions) : OpCall :=
  {| schema := "c10d::barrier";
     call_tensor := barrier_tensor g opts;
     call_device_ids := device_ids opts;
     call_timeout := barrier_timeout opts;
     call_wait_all_ranks := None |}.

Definition monitoredBarrier_call (opts : BarrierOptions) (wait_all_ranks : bool)
    : OpCall :=
  {| schema := "c10d::monitored_barrier_";
     call_tensor :=
       at_.empty [0] (at_.with_device (Device_of_type CPU) at_.TensorOptions_default);
     call_device_ids := device_ids opts;
     call_timeout := barrier_timeout opts;
     call_wait_all_ranks := Some wait_all_ranks |}.

(** Code outside the group (a registered operation, a backend's virtual
    method) sees the group but changes only backend objects. *)
Definition external (A : Type) : Type :=
  ProcessGroup → gmap ptr Backend → gmap ptr Backend * result A.

Definition run_external {A} (f : external A) : M A := λ s,
  let '(h, r) := f (this s) (backends s) in
  ({| this := this s; backends := h |}, r).

(** [p->method()] for a virtual method: the object must be there. *)
Definition virtual_call {A} (p : ptr) (method : ptr → external A) : M A :=
  load p;; run_external (method p).

(** A completion hook is a callable the group only passes on; it is kept
    by a name. *)
Definition Hook := nat.

(** The collaborators of the group: the operation dispatcher, which
    returns the handle of the asynchronous work, and the virtual methods
    of the backend interface that the header calls.  Each backend kind
    brings its own methods, so nothing is assumed about them. *)
Class Collaborators (Work : Type) := {
  op_call : OpCall → external Work;
  Backend_startCoalescing : ptr → external unit;
  Backend_endCoalescing : ptr → external Work;
  Backend_setSequenceNumberForGroup : ptr → external unit;
  Backend_getSequenceNumberForGroup : ptr → external Z;
  Backend_registerOnCompletionHook : Hook → ptr → external unit;
  Backend_waitForPendingWorks : ptr → external unit;
  Backend_hasHooks : ptr → external bool
}.

(** Modelled from the spec: the constructors are declared in the header
    and defined elsewhere.  Rank and size are set once at construction,
    the options are kept, and backends are attached only afterwards.  How
    the default backend kind follows from the backend name is not given,
    so that function is an argument. *)
Definition ProcessGroup_new (strToBackendType : string → BackendType)
    (rank size : Z) (options : Options) : ProcessGroup :=
  {| rank_ := rank; size_ := size; options_ := options;
     backendType_ := strToBackendType (backend options);
     deviceTypes_ := ∅;
     deviceTypeToBackendType_ := ∅;
     deviceTypeToBackend_ := ∅;
     backendTypeToBackend_ := ∅;
     bound_device_id_ := None |}.

Definition sequence_numbers_unsupported (name : string) : list msg_arg :=
  [MStr ("ProcessGroup " +:+ name +:+ " does not yet support sequence numbers.")].

(** The public member functions, as requests a caller can make.  (The
    collectives other than the two barriers build an argument list and
    hand it to the dispatcher, as [monitoredBarrier] does; they are left
    out.) *)
Inductive Op :=
  | call_getRank
  | call_getSize
  | call_getBackendID (backendType : BackendType)
  | call_getBackendName
  | call_getBackendType
  | call_startCoalescing (deviceType : DeviceType)
  | call_endCoalescing (deviceType : DeviceType)
  | call_monitoredBarrier (opts : BarrierOptions) (wait_all_ranks : bool)
  | call_setSequenceNumberForGroup
  | call_getSequenceNumberForGroup
  | call_barrier (opts : BarrierOptions)
  | call_getOptions
  | call_hasBackends
  | call_setBackend (deviceType : DeviceType) (backendType : BackendType)
      (backend : option ptr)
  | call_getDefaultBackend
  | call_getBackend_deviceType (deviceType : DeviceType)
  | call_getBackend (backendType : BackendType)
  | call_getDeviceTypes
  | call_registerOnCompletionHook (hook : Hook)
  | call_waitForPendingWorks
  | call_hasHooks
  | call_getBoundDeviceId
  | call_setBoundDeviceId (device : option Device).

(** Running a member function for its effect only. *)
Definition discard {A} (m : M A) : M unit := m;; mret tt.

Section ProcessGroup.

Context {Work : Type} {collaborators : Collaborators Work}.

Definition startCoalescing (deviceType : DeviceType) : M unit :=
  backend ← getBackend_deviceType deviceType;
  virtual_call backend Backend_startCoalescing.

Definition endCoalescing (deviceType : DeviceType) : M Work :=
  backend ← getBackend_deviceType deviceType;
  work ← virtual_call backend Backend_endCoalescing;
  mret work.

Definition monitoredBarrier (opts : BarrierOptions) (wait_all_ranks : bool)
    : M unit :=
  run_external (op_call (monitoredBarrier_call opts wait_all_ranks));;
  mret tt.

Definition setSequenceNumberForGroup : M unit :=
  backendType ← getBackendType;
  if bool_decide (backendType = GLOO) || bool_decide (backendType = NCCL)
     || bool_decide (backendType = UCC)
  then
    p ← getDefaultBackend;
    virtual_call p Backend_setSequenceNumberForGroup
  else
    name ← getBackendName;
    TORCH_CHECK false (sequence_numbers_unsupported name).

Definition getSequenceNumberForGroup : M Z :=
  backendType ← getBackendType;
  if bool_decide (backendType = GLOO) || bool_decide (backendType = NCCL)
     || bool_decide (backendType = UCC)
  then
    p ← getDefaultBackend;
    virtual_call p Backend_getSequenceNumberForGroup
  else
    name ← getBackendName;
    TORCH_CHECK false (sequence_numbers_unsupported name);;
    (* the branch ends without a return statement *)
    undefined NoReturnValue.

Definition barrier (opts : BarrierOptions) : M Work :=
  g ← gets id;
  run_external (op_call (barrier_call g opts)).

Definition registerOnCompletionHook (hook : Hook) : M unit :=
  p ← getDefaultBackend;
  virtual_call p (Backend_registerOnCompletionHook hook).

Definition waitForPendingWorks : M unit :=
  p ← getDefaultBackend;
  virtual_call p Backend_waitForPendingWorks.

Definition hasHooks : M bool :=
  p ← getDefaultBackend;
  virtual_call p Backend_hasHooks.

Definition exec (o : Op) : M unit :=
  match o with
  | call_getRank => discard getRank
  | call_getSize => discard getSize
  | call_getBackendID bt => discard (getBackendID bt)
  | call_getBackendName => discard getBackendName
  | call_getBackendType => discard getBackendType
  | call_startCoalescing dt => startCoalescing dt
  | call_endCoalescing dt => discard (endCoalescing dt)
  | call_monitoredBarrier opts w => monitoredBarrier opts w
  | call_setSequenceNumberForGroup => setSequenceNumberForGroup
  | call_getSequenceNumberForGroup => discard getSequenceNumberForGroup
  | call_barrier opts => discard (barrier opts)
  | call_getOptions => discard getOptions
  | call_hasBackends => discard hasBackends
  | call_setBackend dt bt b => setBackend dt bt b
  | call_getDefaultBackend => discard getDefaultBackend
  | call_getBackend_deviceType dt => discard (getBackend_deviceType dt)
  | call_getBackend bt => discard (getBackend bt)
  | call_getDeviceTypes => discard getDeviceTypes
  | call_registerOnCompletionHook hook => registerOnCompletionHook hook
  | call_waitForPendingWorks => waitForPendingWorks
  | call_hasHooks => discard hasHooks
  | call_getBoundDeviceId => discard getBoundDeviceId
  | call_setBoundDeviceId d => setBoundDeviceId d
  end.

(** A caller's history: an exception ends the call that raised it and
    the caller goes on; undefined behaviour ends the history. *)
Fixpoint run (ops : list Op) (s : State) : State :=
  match ops with
  | [] => s
  | o :: ops' =>
      match exec o s with
      | (s', Undefined _) => s'
      | (s', _) => run ops' s'
      end
  end.

End ProcessGroup.

(** ** The registry after [setBackend] *)

(** The two recordings [setBackend] starts with. *)
Definition recorded (dt : DeviceType) (bt : BackendType) (g : ProcessGroup)
    : ProcessGroup :=
  set_deviceTypes (λ ds, {[dt]} ∪ ds)
    (set_deviceTypeToBackendType <[dt := bt]> g).

Definition serve (dt : DeviceType) (p : ptr) (g : ProcessGroup) : ProcessGroup :=
  set_deviceTypeToBackend <[dt := p]> g.

Definition bind_backend (d : option Device) (b : Backend) : Backend :=
  {| backend_bound_device_id_ := d; sequenceNum_ := sequenceNum_ b |}.


(** ** Predicates used in the statements *)

(** A result that is a normal return or an exception. *)
Definition defined {A} (r : result A) : Prop :=
  match r with
  | Undefined _ => False
  | _ => True
  end.

(** A computation that leaves the group's data members as they are. *)
Definition readonly {A} (m : M A) : Prop := ∀ s, this (m s).1 = this s.

(** Every pointer in the backend-type map points to an object. *)
Definition registry_live (s : State) : Prop :=
  ∀ bt p, backendTypeToBackend_ (this s) !! bt = Some p →
          is_Some (backends s !! p).

(** The group's bound device, when there is one, has an index. *)
Definition bound_has_index (g : ProcessGroup) : Prop :=
  ∀ d, bound_device_id_ g = Some d → has_index d = true.

(** Exactly one backend instance is registered and it serves [CPU] only. *)
Definition only_CPU_backend (g : ProcessGroup) : Prop :=
  ∃ bt p,
    deviceTypes_ g = {[CPU]} ∧
    deviceTypeToBackendType_ g = {[CPU := bt]} ∧
    deviceTypeToBackend_ g = {[CPU := p]} ∧
    backendTypeToBackend_ g = {[bt := p]}.

(** A call that attaches an instance under backend type [bt]. *)
Definition attaches (bt : BackendType) (o : Op) : Prop :=
  match o with
  | call_setBackend _ bt' (Some _) => bt' = bt
  | _ => False
  end.

(** The member functions that assign to a data member of the group. *)
Definition writes_group (o : Op) : bool :=
  match o with
  | call_setBackend _ _ _ | call_setBoundDeviceId _ => true
  | _ => false
  end.

(** ** Concrete groups and collaborators for the examples *)

Definition kProcessGroupDefaultTimeout : Z := 30 * 60 * 1000.

(** A group of two processes seen from rank 0, with no backend attached. *)
Definition group_without_backends (bt : BackendType) (name : string)
    : ProcessGroup :=
  {| rank_ := 0; size_ := 2;
     options_ := {| timeout := kProcessGroupDefaultTimeout; backend := name |};
     backendType_ := bt;
     deviceTypes_ := ∅;
     deviceTypeToBackendType_ := ∅;
     deviceTypeToBackend_ := ∅;
     backendTypeToBackend_ := ∅;
     bound_device_id_ := None |}.

Definition unbound_backend : Backend :=
  {| backend_bound_device_id_ := None; sequenceNum_ := 0 |}.

(** Two backend objects, at addresses 1 and 2, and a group that refers to
    neither yet. *)
Definition start (bt : BackendType) (name : string) : State :=
  {| this := group_without_backends bt name;
     backends := {[ 1%positive := unbound_backend; 2%positive := unbound_backend ]} |}.

(** The group after [setBackend(CPU, GLOO, backend 1)]. *)
Definition with_gloo_on_CPU (bt : BackendType) (name : string) : State :=
  (setBackend CPU GLOO (Some 1%positive) (start bt name)).1.

Definition default_BarrierOptions : BarrierOptions :=
  {| device_ids := []; barrier_timeout := kProcessGroupDefaultTimeout; device := None |}.

(** A dispatcher that hands back the call it was given. *)
Definition echo_call (c : OpCall) : external OpCall := λ _ h, (h, Ok c).

(** A backend kind whose sequence number is its counter and whose
    agreement step resets the counter; it has no hooks and does not
    coalesce. *)
Definition counter_setSequenceNumberForGroup (p : ptr) : external unit :=
  λ _ h, (alter (λ b, {| backend_bound_device_id_ := backend_bound_device_id_ b;
                         sequenceNum_ := 0 |}) p h, Ok tt).

Definition counter_getSequenceNumberForGroup (p : ptr) : external Z :=
  λ _ h, (h, Ok (from_option sequenceNum_ 0 (h !! p))).

Definition counter_backend : Collaborators OpCall :=
  {| op_call := echo_call;
     Backend_startCoalescing := λ _ _ h, (h, Ok tt);
     Backend_endCoalescing := λ _ _ h, (h, Throw (c10_Error []));
     Backend_setSequenceNumberForGroup := counter_setSequenceNumberForGroup;
     Backend_getSequenceNumberForGroup := counter_getSequenceNumberForGroup;
     Backend_registerOnCompletionHook := λ _ _ _ h, (h, Throw (c10_Error []));
     Backend_waitForPendingWorks := λ _ _ h, (h, Ok tt);
     Backend_hasHooks := λ _ _ h, (h, Ok false) |}.

(** ** The collectives and the point-to-point calls *)

(** Modelled from the spec: the reduction operator is a value object
    declared with the option structs, outside the header; the group passes
    it on without looking into it, so it is kept by a code. *)
Definition ReduceOp := nat.

(** Modelled from the spec: the option structs are declared outside the
    header; each record has the fields the header reads, timeouts in
    milliseconds. *)
Record BroadcastOptions := mkBroadcastOptions {
  broadcast_rootRank : Z;
  broadcast_rootTensor : Z;
  broadcast_asyncOp : bool;
  broadcast_timeout : Z
}.

Record AllreduceOptions := mkAllreduceOptions {
  allreduce_reduceOp : ReduceOp;
  allreduce_sparseIndices : option at_.Tensor;
  allreduce_timeout : Z
}.

Record AllreduceCoalescedOptions := mkAllreduceCoalescedOptions {
  allreduce_coalesced_reduceOp : ReduceOp;
  allreduce_coalesced_timeout : Z
}.

Record ReduceOptions := mkReduceOptions {
  reduce_reduceOp : ReduceOp;
  reduce_rootRank : Z;
  reduce_rootTensor : Z;
  reduce_timeout : Z
}.

Record AllgatherOptions := mkAllgatherOptions {
  allgather_asyncOp : bool;
  allgather_timeout : Z
}.

Record GatherOptions := mkGatherOptions {
  gather_rootRank : Z;
  gather_timeout : Z
}.

Record ScatterOptions := mkScatterOptions {
  scatter_rootRank : Z;
  scatter_asyncOp : bool;
  scatter_timeout : Z
}.

Record ReduceScatterOptions := mkReduceScatterOptions {
  reduce_scatter_reduceOp : ReduceOp;
  reduce_scatter_asyncOp : bool;
  reduce_scatter_timeout : Z
}.

Record AllToAllOptions := mkAllToAllOptions {
  alltoall_timeout : Z
}.

(** An argument of [op.call], in the order of the call. *)
Inductive Arg :=
  | ATensor (t : at_.Tensor)
  | ATensors (ts : list at_.Tensor)
  | ATensorLists (tss : list (list at_.Tensor))
  | AThis
  | AReduceOp (r : ReduceOp)
  | AOptionalTensor (o : option at_.Tensor)
  | AInt (z : Z)
  | AInts (zs : list Z)
  | ABool (b : bool).

(** The registered operations behind the collectives, by the result type
    of the typed handle the header asks for: the work handle alone, or a
    tuple of output tensors and the work handle. *)
Class Dispatcher (Work : Type) := {
  call_Work : string → list Arg → external Work;
  call_Tensors_Work : string → list Arg → external (list at_.Tensor * Work);
  call_TensorLists_Work :
    string → list Arg → external (list (list at_.Tensor) * Work);
  call_Tensor_Work : string → list Arg → external (at_.Tensor * Work)
}.

Section Collectives.

Context {Work : Type} {dispatcher : Dispatcher Work}.

Definition broadcast (tensors : list at_.Tensor) (opts : BroadcastOptions)
    : M Work :=
  r ← run_external
        (call_Tensors_Work "c10d::broadcast_"
           [ATensors tensors; AThis; AInt (broadcast_rootRank opts);
            AInt (broadcast_rootTensor opts); ABool (broadcast_asyncOp opts);
            AInt (broadcast_timeout opts)]);
  mret r.2.

Definition allreduce (tensors : list at_.Tensor) (opts : AllreduceOptions)
    : M Work :=
  r ← run_external
        (call_Tensors_Work "c10d::allreduce_"
           [ATensors tensors; AThis; AReduceOp (allreduce_reduceOp opts);
            AOptionalTensor (allreduce_sparseIndices opts);
            AInt (allreduce_timeout opts)]);
  mret r.2.

Definition allreduce_coalesced (tensors : list at_.Tensor)
    (opts : AllreduceCoalescedOptions) : M Work :=
  run_external
    (call_Work "c10d::allreduce_coalesced_"
       [ATensors tensors; AThis; AReduceOp (allreduce_coalesced_reduceOp opts);
        AInt (allreduce_coalesced_timeout opts)]).

Definition reduce (tensors : list at_.Tensor) (opts : ReduceOptions) : M Work :=
  run_external
    (call_Work "c10d::reduce_"
       [ATensors tensors; AThis; AReduceOp (reduce_reduceOp opts);
        AInt (reduce_rootRank opts); AInt (reduce_rootTensor opts);
        AInt (reduce_timeout opts)]).

Definition allgather (outputTensors : list (list at_.Tensor))
    (inputTensors : list at_.Tensor) (opts : AllgatherOptions) : M Work :=
  r ← run_external
        (call_TensorLists_Work "c10d::allgather_"
           [ATensorLists outputTensors; ATensors inputTensors; AThis;
            AInt (allgather_timeout opts)]);
  mret r.2.

Definition _allgather_base (outputBuffer inputBuffer : at_.Tensor)
    (opts : AllgatherOptions) : M Work :=
  r ← run_external
        (call_Tensor_Work "c10d::_allgather_base_"
           [ATensor outputBuffer; ATensor inputBuffer; AThis;
            ABool (allgather_asyncOp opts); AInt (allgather_timeout opts)]);
  mret r.2.

Definition allgather_coalesced (outputTensorLists : list (list at_.Tensor))
    (inputTensors : list at_.Tensor) (opts : AllgatherOptions) : M Work :=
  run_external
    (call_Work "c10d::allgather_coalesced_"
       [ATensorLists outputTensorLists; ATensors inputTensors; AThis]).

Definition allgather_into_tensor_coalesced
    (outputTensors inputTensors : list at_.Tensor) (opts : AllgatherOptions)
    : M Work :=
  run_external
    (call_Work "c10d::allgather_into_tensor_coalesced_"
       [ATensors outputTensors; ATensors inputTensors; AThis]).

Definition gather (outputTensors : list (list at_.Tensor))
    (inputTensors : list at_.Tensor) (opts : GatherOptions) : M Work :=
  run_external
    (call_Work "c10d::gather_"
       [ATensorLists outputTensors; ATensors inputTensors; AThis;
        AInt (gather_rootRank opts); AInt (gather_timeout opts)]).

Definition scatter (outputTensors : list at_.Tensor)
    (inputTensors : list (list at_.Tensor)) (opts : ScatterOptions) : M Work :=
  r ← run_external
        (call_Tensors_Work "c10d::scatter_"
           [ATensors outputTensors; ATensorLists inputTensors; AThis;
            AInt (scatter_rootRank opts); ABool (scatter_asyncOp opts);
            AInt (scatter_timeout opts)]);
  mret r.2.

Definition reduce_scatter (outputTensors : list at_.Tensor)
    (inputTensors : list (list at_.Tensor)) (opts : ReduceScatterOptions)
    : M Work :=
  r ← run_external
        (call_Tensors_Work "c10d::reduce_scatter_"
           [ATensors outputTensors; ATensorLists inputTensors; AThis;
            AReduceOp (reduce_scatter_reduceOp opts);
            AInt (reduce_scatter_timeout opts)]);
  mret r.2.

Definition _reduce_scatter_base (outputBuffer inputBuffer : at_.Tensor)
    (opts : ReduceScatterOptions) : M Work :=
  r ← run_external
        (call_Tensor_Work "c10d::_reduce_scatter_base_"
           [ATensor outputBuffer; ATensor inputBuffer; AThis;
            AReduceOp (reduce_scatter_reduceOp opts);
            ABool (reduce_scatter_asyncOp opts);
            AInt (reduce_scatter_timeout opts)]);
  mret r.2.

Definition reduce_scatter_tensor_coalesced
    (outputTensors inputTensors : list at_.Tensor) (opts : ReduceScatterOptions)
    : M Work :=
  run_external
    (call_Work "c10d::reduce_scatter_tensor_coalesced_"
       [ATensors outputTensors; ATensors inputTensors; AThis;
        AReduceOp (reduce_scatter_reduceOp opts);
        AInt (reduce_scatter_timeout opts)]).

Definition alltoall_base (outputBuffer inputBuffer : at_.Tensor)
    (outputSplitSizes inputSplitSizes : list Z) (opts : AllToAllOptions)
    : M Work :=
  run_external
    (call_Work "c10d::alltoall_base_"
       [ATensor outputBuffer; ATensor inputBuffer; AThis;
        AInts outputSplitSizes; AInts inputSplitSizes;
        AInt (alltoall_timeout opts)]).

Definition alltoall (outputTensors inputTensors : list at_.Tensor)
    (opts : AllToAllOptions) : M Work :=
  r ← run_external
        (call_Tensors_Work "c10d::alltoall_"
           [ATensors outputTensors; ATensors inputTensors; AThis;
            AInt (alltoall_timeout opts)]);
  mret r.2.

Definition send (tensors : list at_.Tensor) (dstRank tag : Z) : M Work :=
  run_external
    (call_Work "c10d::send" [ATensors tensors; AThis; AInt dstRank; AInt tag]).

Definition recv (tensors : list at_.Tensor) (srcRank tag : Z) : M Work :=
  run_external
    (call_Work "c10d::recv_" [ATensors tensors; AThis; AInt srcRank; AInt tag]).

Definition recvAnysource (tensors : list at_.Tensor) (tag : Z) : M Work :=
  run_external
    (call_Work "c10d::recv_any_source_" [ATensors tensors; AThis; AInt tag]).

End Collectives.

(** The collectives and point-to-point calls, as requests. *)
Inductive Collective :=
  | call_broadcast (tensors : list at_.Tensor) (opts : BroadcastOptions)
  | call_allreduce (tensors : list at_.Tensor) (opts : AllreduceOptions)
  | call_allreduce_coalesced (tensors : list at_.Tensor)
      (opts : AllreduceCoalescedOptions)
  | call_reduce (tensors : list at_.Tensor) (opts : ReduceOptions)
  | call_allgather (outputTensors : list (list at_.Tensor))
      (inputTensors : list at_.Tensor) (opts : AllgatherOptions)
  | call_allgather_base (outputBuffer inputBuffer : at_.Tensor)
      (opts : AllgatherOptions)
  | call_allgather_coalesced (outputTensorLists : list (list at_.Tensor))
      (inputTensors : list at_.Tensor) (opts : AllgatherOptions)
  | call_allgather_into_tensor_coalesced
      (outputTensors inputTensors : list at_.Tensor) (opts : AllgatherOptions)
  | call_gather (outputTensors : list (list at_.Tensor))
      (inputTensors : list at_.Tensor) (opts : GatherOptions)
  | call_scatter (outputTensors : list at_.Tensor)
      (inputTensors : list (list at_.Tensor)) (opts : ScatterOptions)
  | call_reduce_scatter (outputTensors : list at_.Tensor)
      (inputTensors : list (list at_.Tensor)) (opts : ReduceScatterOptions)
  | call_reduce_scatter_base (outputBuffer inputBuffer : at_.Tensor)
      (opts : ReduceScatterOptions)
  | call_reduce_scatter_tensor_coalesced
      (outputTensors inputTensors : list at_.Tensor)
      (opts : ReduceScatterOptions)
  | call_alltoall_base (outputBuffer inputBuffer : at_.Tensor)
      (outputSplitSizes inputSplitSizes : list Z) (opts : AllToAllOptions)
  | call_alltoall (outputTensors inputTensors : list at_.Tensor)
      (opts : AllToAllOptions)
  | call_send (tensors : list at_.Tensor) (dstRank tag : Z)
  | call_recv (tensors : list at_.Tensor) (srcRank tag : Z)
  | call_recvAnysource (tensors : list at_.Tensor) (tag : Z).

(** A request to the whole public interface of the header. *)
Inductive Call :=
  | member (o : Op)
  | collective (c : Collective).

Section Interface.

Context {Work : Type}.
Context {collaborators : Collaborators Work} {dispatcher : Dispatcher Work}.

Definition issue (c : Collective) : M Work :=
  match c with
  | call_broadcast ts o => broadcast ts o
  | call_allreduce ts o => allreduce ts o
  | call_allreduce_coalesced ts o => allreduce_coalesced ts o
  | call_reduce ts o => reduce ts o
  | call_allgather out inp o => allgather out inp o
  | call_allgather_base out inp o => _allgather_base out inp o
  | call_allgather_coalesced out inp o => allgather_coalesced out inp o
  | call_allgather_into_tensor_coalesced out inp o =>
      allgather_into_tensor_coalesced out inp o
  | call_gather out inp o => gather out inp o
  | call_scatter out inp o => scatter out inp o
  | call_reduce_scatter out inp o => reduce_scatter out inp o
  | call_reduce_scatter_base out inp o => _reduce_scatter_base out inp o
  | call_reduce_scatter_tensor_coalesced out inp o =>
      reduce_scatter_tensor_coalesced out inp o
  | call_alltoall_base out inp osz isz o => alltoall_base out inp osz isz o
  | call_alltoall out inp o => alltoall out inp o
  | call_send ts dst tag => send ts dst tag
  | call_recv ts src tag => recv ts src tag
  | call_recvAnysource ts tag => recvAnysource ts tag
  end.

Definition exec_call (c : Call) : M unit :=
  match c with
  | member o => exec o
  | collective c => discard (issue c)
  end.

(** A history over the whole interface, with the rules of [run]. *)
Fixpoint run_calls (calls : list Call) (s : State) : State :=
  match calls with
  | [] => s
  | c :: calls' =>
      match exec_call c s with
      | (s', Undefined _) => s'
      | (s', _) => run_calls calls' s'
      end
  end.

End Interface.

(** The device-type set is the set of device types that have a backend
    type recorded, and a device type that is served by an instance is in
    it. *)
Definition registry_indexed (g : ProcessGroup) : Prop :=
  dom (deviceTypeToBackendType_ g) = deviceTypes_ g ∧
  dom (deviceTypeToBackend_ g) ⊆ deviceTypes_ g.

(** Every instance that serves a device type is the instance registered
    under some backend type. *)
Definition served_registered (g : ProcessGroup) : Prop :=
  ∀ dt p, deviceTypeToBackend_ g !! dt = Some p →
          ∃ bt, backendTypeToBackend_ g !! bt = Some p.

(** The call [setBackend(dt, bt, backend)] as a request. *)
Definition is_setBackend (c : Call) : Prop :=
  match c with
  | member (call_setBackend _ _ _) => True
  | _ => False
  end.

(** A dispatcher with no operation registered: looking up a schema
    throws. *)
Definition no_operations : Dispatcher OpCall :=
  {| call_Work := λ _ _ _ h, (h, Throw (c10_Error []));
     call_Tensors_Work := λ _ _ _ h, (h, Throw (c10_Error []));
     call_TensorLists_Work := λ _ _ _ h, (h, Throw (c10_Error []));
     call_Tensor_Work := λ _ _ _ h, (h, Throw (c10_Error [])) |}.

(** A dispatcher whose work handle is the call it was given; tuple
    results carry no output tensors. *)
Definition recorded_call : Type := string * list Arg.

Definition recording : Dispatcher recorded_call :=
  {| call_Work := λ name args _ h, (h, Ok (name, args));
     call_Tensors_Work := λ name args _ h, (h, Ok ([], (name, args)));
     call_TensorLists_Work := λ name args _ h, (h, Ok ([], (name, args)));
     call_Tensor_Work := λ name args _ h,
       (h, Ok (at_.empty [] at_.TensorOptions_default, (name, args))) |}.

(** * Properties *)

(** ** Stepping through a computation *)

Lemma bind_Ok {A B} (m : M A) (f : A → M B) s s' a :
  m s = (s', Ok a) → (m ≫= f) s = f a s'.
Proof. unfold mbind, M_bind. by intros ->. Qed.

Lemma bind_Throw {A B} (m : M A) (f : A → M B) s s' e :
  m s = (s', Throw e) → (m ≫= f) s = (s', Throw e).
Proof. unfold mbind, M_bind. by intros ->. Qed.

Lemma bind_Undefined {A B} (m : M A) (f : A → M B) s s' u :
  m s = (s', Undefined u) → (m ≫= f) s = (s', Undefined u).
Proof. unfold mbind, M_bind. by intros ->. Qed.

Lemma found_Some `{Countable K} {V} (m : gmap K V) k v :
  m !! k = Some v → found m k = true.
Proof. intros Hk. apply bool_decide_eq_true_2. eauto. Qed.

Lemma found_None `{Countable K} {V} (m : gmap K V) k :
  m !! k = None → found m k = false.
Proof. intros Hk. apply bool_decide_eq_false_2. rewrite Hk. by intros [? ?]. Qed.

(** Every path through [setBackend], with the state it ends in. *)
Lemma setBackend_paths dt bt b s :
  setBackend dt bt b s =
  match backendTypeToBackend_ (this s) !! bt with
  | Some p =>
      let s2 := {| this := serve dt p (recorded dt bt (this s));
                   backends := backends s |} in
      match backends s !! p with
      | None => (s2, Undefined NullPointer)
      | Some eb =>
          match b with
          | None => (s2, Undefined AbsentOptionalValue)
          | Some q =>
              match backends s !! q with
              | None => (s2, Undefined NullPointer)
              | Some nb =>
                  if bool_decide (backend_bound_device_id_ eb =
                                  backend_bound_device_id_ nb)
                  then (s2, Ok tt)
                  else (s2, Throw (c10_Error []))
              end
          end
      end
  | None =>
      match b with
      | None =>
          ({| this := recorded dt bt (this s); backends := backends s |}, Ok tt)
      | Some q =>
          let g3 := set_backendTypeToBackend <[bt := q]>
                      (serve dt q (recorded dt bt (this s))) in
          match backends s !! q with
          | None => ({| this := g3; backends := backends s |}, Undefined NullPointer)
          | Some nb =>
              ({| this := g3;
                  backends := <[q := bind_backend (bound_device_id_ (this s)) nb]>
                                (backends s) |}, Ok tt)
          end
      end
  end.
Proof.
  unfold setBackend, mbind, M_bind, mret, M_ret, gets, modify; cbn.
  destruct (backendTypeToBackend_ (this s) !! bt) as [p|] eqn:Hbt.
  - rewrite (found_Some _ _ _ Hbt).
    unfold at_key; cbn. rewrite Hbt; cbn.
    unfold Backend_getBoundDeviceId, load, mbind, M_bind, mret, M_ret; cbn.
    destruct (backends s !! p) as [eb|]; [|done].
    destruct b as [q|]; [|done]. cbn.
    destruct (backends s !! q) as [nb|]; [|done]. cbn.
    unfold TORCH_CHECK. by case_bool_decide.
  - rewrite (found_None _ _ Hbt).
    destruct b as [q|]; [|done]. cbn.
    unfold Backend_setBoundDeviceId, load, store, mbind, M_bind; cbn.
    by destruct (backends s !! q) as [nb|].
Qed.

(** The group [setBackend] leaves behind does not depend on how the call
    ends. *)
Lemma setBackend_this dt bt b s :
  this (setBackend dt bt b s).1 =
  match backendTypeToBackend_ (this s) !! bt, b with
  | Some p, _ => serve dt p (recorded dt bt (this s))
  | None, Some q =>
      set_backendTypeToBackend <[bt := q]> (serve dt q (recorded dt bt (this s)))
  | None, None => recorded dt bt (this s)
  end.
Proof.
  rewrite setBackend_paths.
  destruct (backendTypeToBackend_ (this s) !! bt) as [p|]; cbn.
  - destruct (backends s !! p); [|done].
    destruct b as [q|]; [|done].
    destruct (backends s !! q); [|done].
    by case_bool_decide.
  - destruct b as [q|]; [|done]. by destruct (backends s !! q).
Qed.

Lemma setBoundDeviceId_paths d s :
  setBoundDeviceId d s =
  match d with
  | Some x =>
      if has_index x
      then ({| this := set_bound_device_id (Some x) (this s);
               backends := backends s |}, Ok tt)
      else (s, Throw (c10_Error [MStr "setBoundDeviceId must have an index"]))
  | None =>
      ({| this := set_bound_device_id None (this s); backends := backends s |},
       Ok tt)
  end.
Proof.
  unfold setBoundDeviceId, TORCH_CHECK, mbind, M_bind, mret, M_ret, modify, throw.
  destruct d as [x|]; [|done]. by destruct (has_index x).
Qed.

Lemma getBackend_paths bt s :
  getBackend bt s =
  match backendTypeToBackend_ (this s) !! bt with
  | Some p => (s, Ok p)
  | None =>
      (s, Throw (c10_Error [MStr "Could not find backend type ";
                            MBackendType bt; MStr "."]))
  end.
Proof.
  unfold getBackend, mbind, M_bind, gets; cbn.
  destruct (backendTypeToBackend_ (this s) !! bt) as [p|] eqn:Hbt.
  - rewrite (found_Some _ _ _ Hbt); cbn. unfold at_key. by rewrite Hbt.
  - by rewrite (found_None _ _ Hbt).
Qed.

Lemma getDefaultBackend_paths s :
  getDefaultBackend s =
  match backendTypeToBackend_ (this s) !! backendType_ (this s) with
  | Some p => (s, Ok p)
  | None =>
      (s, Throw (c10_Error [MStr "Could not find the default backend type ";
                            MBackendType (backendType_ (this s));
                            MStr " for Process Group with name ";
                            MStr (backend (options_ (this s)));
                            MStr "."]))
  end.
Proof.
  unfold getDefaultBackend, getBackendName, mbind, M_bind, gets; cbn.
  destruct (backendTypeToBackend_ (this s) !! backendType_ (this s)) as [p|] eqn:Hbt.
  - rewrite (found_Some _ _ _ Hbt); cbn. unfold at_key. by rewrite Hbt.
  - by rewrite (found_None _ _ Hbt).
Qed.

(** ** Member functions that only read the group *)

Create HintDb readonly.

Lemma readonly_ret {A} (a : A) : readonly (mret a : M A).
Proof. done. Qed.

Lemma readonly_throw {A} e : readonly (throw e : M A).
Proof. done. Qed.

Lemma readonly_undefined {A} u : readonly (undefined u : M A).
Proof. done. Qed.

Lemma readonly_gets {A} (f : ProcessGroup → A) : readonly (gets f).
Proof. done. Qed.

Lemma readonly_bind {A B} (m : M A) (f : A → M B) :
  readonly m → (∀ a, readonly (f a)) → readonly (m ≫= f).
Proof.
  intros Hm Hf s. unfold mbind, M_bind.
  specialize (Hm s). destruct (m s) as [s' [a|e|u]]; cbn in *; [|done..].
  by rewrite Hf.
Qed.

Lemma readonly_TORCH_CHECK c msg : readonly (TORCH_CHECK c msg).
Proof. by destruct c. Qed.

Lemma readonly_at_key `{Countable K} {V} (m : gmap K V) k : readonly (at_key m k).
Proof. unfold at_key. by destruct (m !! k). Qed.

Lemma readonly_load p : readonly (load p).
Proof. intros s. unfold load. by destruct (backends s !! p). Qed.

Lemma readonly_run_external {A} (f : external A) : readonly (run_external f).
Proof. intros s. unfold run_external. by destruct (f (this s) (backends s)). Qed.

#[export] Hint Resolve readonly_ret readonly_throw readonly_undefined
  readonly_gets readonly_TORCH_CHECK readonly_at_key readonly_load
  readonly_run_external : readonly.

Ltac readonly_steps :=
  repeat first
    [ progress eauto with readonly
    | apply readonly_bind; [|intros ?]
    | match goal with
      | |- readonly (if ?c then _ else _) => destruct c
      | |- readonly (match ?o with Some _ => _ | None => _ end) => destruct o
      end ].

Lemma readonly_virtual_call {A} p (method : ptr → external A) :
  readonly (virtual_call p method).
Proof. unfold virtual_call. readonly_steps. Qed.

Lemma readonly_discard {A} (m : M A) : readonly m → readonly (discard m).
Proof. intros Hm. unfold discard. readonly_steps. Qed.

Lemma readonly_getDefaultBackend : readonly getDefaultBackend.
Proof. unfold getDefaultBackend, getBackendName. readonly_steps. Qed.

Lemma readonly_getBackend bt : readonly (getBackend bt).
Proof. unfold getBackend. readonly_steps. Qed.

Lemma readonly_getBackend_deviceType dt : readonly (getBackend_deviceType dt).
Proof. unfold getBackend_deviceType. readonly_steps. Qed.

#[export] Hint Resolve readonly_virtual_call readonly_discard
  readonly_getDefaultBackend readonly_getBackend
  readonly_getBackend_deviceType : readonly.

Section Histories.

Context {Work : Type} {collaborators : Collaborators Work}.

Lemma readonly_exec o : writes_group o = false → readonly (exec o).
Proof.
  destruct o; cbn; try done; intros _;
    unfold getRank, getSize, getBackendID, getBackendName, getBackendType,
      getOptions, hasBackends, getDeviceTypes, getBoundDeviceId,
      startCoalescing, endCoalescing, setSequenceNumberForGroup,
      getSequenceNumberForGroup, barrier, monitoredBarrier,
      registerOnCompletionHook, waitForPendingWorks, hasHooks,
      getBackendType, getBackendName;
    readonly_steps.
Qed.

(** A property of the group that the two writing member functions keep,
    for the calls a history is allowed to make, holds along the history. *)
Lemma run_invariant (P : ProcessGroup → Prop) (allowed : Op → Prop) :
  (∀ dt bt b s, allowed (call_setBackend dt bt b) → P (this s) →
     P (this (setBackend dt bt b s).1)) →
  (∀ d s, allowed (call_setBoundDeviceId d) → P (this s) →
     P (this (setBoundDeviceId d s).1)) →
  ∀ ops s, Forall allowed ops → P (this s) → P (this (run ops s)).
Proof.
  intros Hset Hbound ops.
  induction ops as [|o ops IH]; intros s Hall HP; [done|].
  inversion Hall as [|? ? Ho Hops]; subst.
  assert (P (this (exec o s).1)) as Hstep.
  { destruct (writes_group o) eqn:Hw.
    - destruct o; try discriminate; cbn; eauto.
    - by rewrite readonly_exec. }
  cbn. destruct (exec o s) as [s' [[]|e|u]]; cbn in *; eauto.
Qed.

End Histories.

(** ** Registration *)

(** Reusing a registered backend type without supplying an instance reads
    the value of an empty optional. *)
Lemma setBackend_reuse_absent dt bt p eb s :
  backendTypeToBackend_ (this s) !! bt = Some p →
  backends s !! p = Some eb →
  (setBackend dt bt None s).2 = Undefined AbsentOptionalValue.
Proof. intros Hbt Hp. rewrite setBackend_paths, Hbt; cbn. by rewrite Hp. Qed.

(** C1: after [setBackend(CPU, GLOO, glooBackend)] has returned, the call
    [setBackend(CUDA, GLOO, nullopt)] does not succeed: it takes the reuse
    branch, which evaluates [*backend] on the empty optional, and so
    reads an absent value. *)
Theorem setBackend_reuse_without_instance_is_undefined :
  ∃ s1 s2,
    setBackend CPU GLOO (Some 1%positive) (start GLOO "gloo") = (s1, Ok tt) ∧
    setBackend CUDA GLOO None s1 = (s2, Undefined AbsentOptionalValue).
Proof.
  eexists _, _. split.
  - rewrite setBackend_paths. reflexivity.
  - rewrite setBackend_paths. reflexivity.
Qed.

(** C6: whatever branch a call [setBackend(deviceType, backendType, backend)]
    takes and however it ends (a normal return, a failed bound-device
    check, or an access that is undefined, where the state is the one at
    that access), the state it leaves behind maps [deviceType] to
    [backendType] and has [deviceType] in the device-type set: the two
    recordings come first and nothing undoes them. *)
Theorem setBackend_always_records dt bt b s :
  deviceTypeToBackendType_ (this (setBackend dt bt b s).1) !! dt = Some bt ∧
  dt ∈ deviceTypes_ (this (setBackend dt bt b s).1).
Proof.
  rewrite setBackend_this.
  destruct (backendTypeToBackend_ (this s) !! bt) as [p|], b as [q|]; cbn;
    (split; [apply lookup_insert_eq | set_solver]).
Qed.

(** A call that fails the bound-device check, and what it leaves
    recorded: the group is bound to cuda:0, the first registration binds
    backend 1 to it, and the second supplies the unbound backend 2. *)
Lemma setBackend_failed_check_keeps_records :
  ∃ s0 s1 s2,
    setBoundDeviceId (Some (mkDevice CUDA 0)) (start GLOO "gloo") = (s0, Ok tt) ∧
    setBackend CPU GLOO (Some 1%positive) s0 = (s1, Ok tt) ∧
    setBackend CUDA GLOO (Some 2%positive) s1 = (s2, Throw (c10_Error [])) ∧
    deviceTypeToBackendType_ (this s2) !! CUDA = Some GLOO ∧
    CUDA ∈ deviceTypes_ (this s2).
Proof.
  eexists _, _, _. split; [|split; [|split]].
  - rewrite setBoundDeviceId_paths. reflexivity.
  - rewrite setBackend_paths. reflexivity.
  - rewrite setBackend_paths. reflexivity.
  - split; [reflexivity|]. cbn. set_solver.
Qed.

(** C8: when [backendType] is not registered yet and an instance is
    supplied, [setBackend] returns normally, the instance is registered in
    the device-type map and in the backend-type map, and the instance's
    bound device is afterwards the group's bound device (which the call
    leaves as it was). *)
Theorem setBackend_registers_new_instance dt bt p b s :
  backendTypeToBackend_ (this s) !! bt = None →
  backends s !! p = Some b →
  ∃ s', setBackend dt bt (Some p) s = (s', Ok tt) ∧
        deviceTypeToBackend_ (this s') !! dt = Some p ∧
        backendTypeToBackend_ (this s') !! bt = Some p ∧
        Backend_getBoundDeviceId p s' = (s', Ok (bound_device_id_ (this s))) ∧
        getBoundDeviceId s' = (s', Ok (bound_device_id_ (this s))).
Proof.
  intros Hbt Hp. rewrite setBackend_paths, Hbt, Hp; cbn.
  eexists. split; [reflexivity|]. cbn.
  split; [apply lookup_insert_eq|].
  split; [apply lookup_insert_eq|].
  split; [|done].
  unfold Backend_getBoundDeviceId, load, mbind, M_bind; cbn.
  by rewrite lookup_insert_eq.
Qed.

Lemma setBackend_registers_new_instance_witness :
  ∃ s', setBackend CPU GLOO (Some 1%positive) (start GLOO "gloo") = (s', Ok tt) ∧
        deviceTypeToBackend_ (this s') !! CPU = Some 1%positive ∧
        backendTypeToBackend_ (this s') !! GLOO = Some 1%positive ∧
        Backend_getBoundDeviceId 1%positive s' = (s', Ok None) ∧
        getBoundDeviceId s' = (s', Ok None).
Proof.
  apply (setBackend_registers_new_instance CPU GLOO 1%positive unbound_backend
           (start GLOO "gloo")); reflexivity.
Defined.

(** ** One instance per backend type *)

Lemma setBoundDeviceId_keeps_maps d s :
  backendTypeToBackend_ (this (setBoundDeviceId d s).1) =
  backendTypeToBackend_ (this s).
Proof.
  rewrite setBoundDeviceId_paths.
  destruct d as [x|]; [|done]. by destruct (has_index x).
Qed.

(** An instance registered under a backend type is never replaced. *)
Lemma setBackend_keeps_registered dt bt' b bt p s :
  backendTypeToBackend_ (this s) !! bt = Some p →
  backendTypeToBackend_ (this (setBackend dt bt' b s).1) !! bt = Some p.
Proof.
  intros Hbt. rewrite setBackend_this.
  destruct (backendTypeToBackend_ (this s) !! bt') as [p'|] eqn:Hbt',
    b as [q|]; cbn; try done.
  rewrite lookup_insert_ne; [done|]. congruence.
Qed.

(** A backend type stays unregistered unless a call supplies an instance
    for it. *)
Lemma setBackend_keeps_unregistered dt bt' b bt s :
  ¬ attaches bt (call_setBackend dt bt' b) →
  backendTypeToBackend_ (this s) !! bt = None →
  backendTypeToBackend_ (this (setBackend dt bt' b s).1) !! bt = None.
Proof.
  intros Hatt Hbt. rewrite setBackend_this.
  destruct (backendTypeToBackend_ (this s) !! bt') as [p'|] eqn:Hbt',
    b as [q|]; cbn; try done.
  rewrite lookup_insert_ne; [done|]. intros ->. by apply Hatt.
Qed.

(** Live pointers stay live: a call that supplies a live instance, or
    none, keeps every registered pointer pointing to an object. *)
Lemma setBackend_keeps_registry_live dt bt b s :
  registry_live s →
  (∀ q, b = Some q → is_Some (backends s !! q)) →
  registry_live (setBackend dt bt b s).1.
Proof.
  intros Hlive Hb. rewrite setBackend_paths.
  destruct (backendTypeToBackend_ (this s) !! bt) as [p|] eqn:Hbt; cbn.
  - destruct (backends s !! p); [|exact Hlive].
    destruct b as [q|]; [|exact Hlive].
    destruct (backends s !! q); [|exact Hlive].
    case_bool_decide; exact Hlive.
  - destruct b as [q|]; [|exact Hlive].
    destruct (Hb q eq_refl) as [nb Hq]. rewrite Hq.
    intros bt' p'; cbn. rewrite lookup_insert. case_decide.
    + intros [= <-]. rewrite lookup_insert_eq. eauto.
    + intros Hp'. apply lookup_insert_is_Some'. right. by eapply Hlive.
Qed.

Lemma getBackend_deviceType_resolves dt bt p s :
  deviceTypeToBackendType_ (this s) !! dt = Some bt →
  backendTypeToBackend_ (this s) !! bt = Some p →
  getBackend_deviceType dt s = (s, Ok p).
Proof.
  intros Hdt Hbt. unfold getBackend_deviceType, mbind, M_bind, gets; cbn.
  by rewrite Hdt, Hbt.
Qed.

Section Registry.

Context {Work : Type} {collaborators : Collaborators Work}.


(** C4: let [setBackend(dt1, B, b1)] be followed by [setBackend(dt2, B, b2)],
    both supplying live instances, in a group whose registered pointers
    are live.  Neither call has undefined behaviour, and afterwards,
    whether or not the bound-device check of either call passed,
    [getBackend(dt1)], [getBackend(dt2)] and [getBackend(B)] return one and
    the same instance, which both device types also hold in the
    device-type map: the instance registered under B before the calls if
    there was one, and [b1] otherwise.  Moreover the instance registered
    under a backend type is never replaced along any history of calls, so
    a group never has a second instance for a backend type. *)
Theorem setBackend_one_instance_per_backend_type :
  (∀ s dt1 dt2 bt b1 b2 s1 r1 s2 r2,
     registry_live s →
     is_Some (backends s !! b1) →
     is_Some (backends s !! b2) →
     setBackend dt1 bt (Some b1) s = (s1, r1) →
     setBackend dt2 bt (Some b2) s1 = (s2, r2) →
     defined r1 ∧ defined r2 ∧
     ∃ p, getBackend_deviceType dt1 s2 = (s2, Ok p) ∧
          getBackend_deviceType dt2 s2 = (s2, Ok p) ∧
          getBackend bt s2 = (s2, Ok p) ∧
          deviceTypeToBackend_ (this s2) !! dt1 = Some p ∧
          deviceTypeToBackend_ (this s2) !! dt2 = Some p ∧
          p = default b1 (backendTypeToBackend_ (this s) !! bt)) ∧
  (∀ ops s bt p,
     backendTypeToBackend_ (this s) !! bt = Some p →
     backendTypeToBackend_ (this (run ops s)) !! bt = Some p).
Proof.
  split.
  - intros s dt1 dt2 bt b1 b2 s1 r1 s2 r2 Hlive [o1 Hb1] [o2 Hb2] H1 H2.
    rewrite setBackend_paths in H1.
    destruct (backendTypeToBackend_ (this s) !! bt) as [p0|] eqn:Hbt; cbn in *.
    + destruct (Hlive _ _ Hbt) as [eb Heb].
      rewrite Heb, Hb1 in H1.
      assert (s1 = {| this := serve dt1 p0 (recorded dt1 bt (this s));
                      backends := backends s |} ∧ defined r1) as [-> Hr1].
      { clear H2. case_bool_decide; by simplify_eq. }
      clear H1. rewrite setBackend_paths in H2. cbn in H2.
      rewrite Hbt in H2. cbn in H2. rewrite Heb, Hb2 in H2.
      assert (s2 = {| this := serve dt2 p0 (recorded dt2 bt
                        (serve dt1 p0 (recorded dt1 bt (this s))));
                      backends := backends s |} ∧ defined r2) as [-> Hr2].
      { case_bool_decide; by simplify_eq. }
      split; [done|]. split; [done|]. exists p0.
      assert (<[dt2:=bt]> (<[dt1:=bt]> (deviceTypeToBackendType_ (this s))) !! dt1
              = Some bt) as Hdt1.
      { destruct (decide (dt2 = dt1)) as [->|]; by simplify_map_eq. }
      assert (<[dt2:=p0]> (<[dt1:=p0]> (deviceTypeToBackend_ (this s))) !! dt1
              = Some p0) as Hd1.
      { destruct (decide (dt2 = dt1)) as [->|]; by simplify_map_eq. }
      split; [by apply (getBackend_deviceType_resolves _ bt)|].
      split; [apply (getBackend_deviceType_resolves _ bt); cbn; [|done];
              apply lookup_insert_eq|].
      split; [rewrite getBackend_paths; cbn; by rewrite Hbt|].
      split; [done|]. split; [apply lookup_insert_eq|done].
    + rewrite Hb1 in H1. simplify_eq.
      rewrite setBackend_paths in H2. cbn in H2.
      rewrite lookup_insert_eq in H2. cbn in H2.
      rewrite lookup_insert_eq in H2.
      assert (is_Some (<[b1:=bind_backend (bound_device_id_ (this s)) o1]>
                         (backends s) !! b2)) as [nb Hnb].
      { destruct (decide (b1 = b2)) as [->|]; simplify_map_eq; eauto. }
      rewrite Hnb in H2.
      match type of H2 with
      | (if _ then (?st, _) else _) = _ =>
          assert (s2 = st ∧ defined r2) as [-> Hr2]
            by (case_bool_decide; by simplify_eq)
      end.
      split; [done|]. split; [done|]. exists b1.
      assert (<[dt2:=bt]> (<[dt1:=bt]> (deviceTypeToBackendType_ (this s))) !! dt1
              = Some bt) as Hdt1.
      { destruct (decide (dt2 = dt1)) as [->|]; by simplify_map_eq. }
      assert (<[dt2:=b1]> (<[dt1:=b1]> (deviceTypeToBackend_ (this s))) !! dt1
              = Some b1) as Hd1.
      { destruct (decide (dt2 = dt1)) as [->|]; by simplify_map_eq. }
      split; [apply (getBackend_deviceType_resolves _ bt); cbn; [done|];
              apply lookup_insert_eq|].
      split; [apply (getBackend_deviceType_resolves _ bt); cbn;
              apply lookup_insert_eq|].
      split; [rewrite getBackend_paths; cbn; by rewrite lookup_insert_eq|].
      split; [done|]. split; [apply lookup_insert_eq|done].
  - intros ops s bt p Hbt.
    apply (run_invariant
             (λ g, backendTypeToBackend_ g !! bt = Some p) (λ _, True));
      [| |by apply Forall_true|done].
    + intros dt bt' b s' _. apply setBackend_keeps_registered.
    + intros d s' _. by rewrite setBoundDeviceId_keeps_maps.
Qed.

(** C5: [getBackend(backendType)] fails with the error "Could not find
    backend type ..." when no instance is registered under [backendType],
    and a backend type under which no call ever attached an instance stays
    unregistered along every history; [getDefaultBackend()] fails with the
    error "Could not find the default backend type ... for Process Group
    with name <backend name>." when nothing is registered under the
    group's own backend type.  When an instance is registered, each
    returns that instance. *)
Theorem getBackend_getDefaultBackend_registered_or_not_found :
  (∀ s bt,
     backendTypeToBackend_ (this s) !! bt = None →
     getBackend bt s =
       (s, Throw (c10_Error [MStr "Could not find backend type ";
                             MBackendType bt; MStr "."]))) ∧
  (∀ ops s bt,
     backendTypeToBackend_ (this s) !! bt = None →
     Forall (λ o, ¬ attaches bt o) ops →
     backendTypeToBackend_ (this (run ops s)) !! bt = None) ∧
  (∀ s bt p,
     backendTypeToBackend_ (this s) !! bt = Some p →
     getBackend bt s = (s, Ok p)) ∧
  (∀ s name,
     backendTypeToBackend_ (this s) !! backendType_ (this s) = None →
     getBackendName s = (s, Ok name) →
     getDefaultBackend s =
       (s, Throw (c10_Error [MStr "Could not find the default backend type ";
                             MBackendType (backendType_ (this s));
                             MStr " for Process Group with name ";
                             MStr name;
                             MStr "."]))) ∧
  (∀ s p,
     backendTypeToBackend_ (this s) !! backendType_ (this s) = Some p →
     getDefaultBackend s = (s, Ok p)).
Proof.
  repeat split.
  - intros s bt Hbt. by rewrite getBackend_paths, Hbt.
  - intros ops s bt Hbt Hops.
    apply (run_invariant
             (λ g, backendTypeToBackend_ g !! bt = None) (λ o, ¬ attaches bt o));
      [| |done..].
    + intros dt bt' b s' Hatt. by apply setBackend_keeps_unregistered.
    + intros d s' _. by rewrite setBoundDeviceId_keeps_maps.
  - intros s bt p Hbt. by rewrite getBackend_paths, Hbt.
  - intros s name Hbt [= <-]. by rewrite getDefaultBackend_paths, Hbt.
  - intros s p Hbt. by rewrite getDefaultBackend_paths, Hbt.
Qed.

End Registry.

(** ** Members fixed at construction, and the bound device *)

Lemma setBackend_keeps_const_members dt bt b s :
  rank_ (this (setBackend dt bt b s).1) = rank_ (this s) ∧
  size_ (this (setBackend dt bt b s).1) = size_ (this s) ∧
  options_ (this (setBackend dt bt b s).1) = options_ (this s) ∧
  backendType_ (this (setBackend dt bt b s).1) = backendType_ (this s) ∧
  bound_device_id_ (this (setBackend dt bt b s).1) = bound_device_id_ (this s).
Proof.
  rewrite setBackend_this.
  by destruct (backendTypeToBackend_ (this s) !! bt), b.
Qed.

Lemma setBoundDeviceId_keeps_const_members d s :
  rank_ (this (setBoundDeviceId d s).1) = rank_ (this s) ∧
  size_ (this (setBoundDeviceId d s).1) = size_ (this s) ∧
  options_ (this (setBoundDeviceId d s).1) = options_ (this s) ∧
  backendType_ (this (setBoundDeviceId d s).1) = backendType_ (this s).
Proof.
  rewrite setBoundDeviceId_paths.
  destruct d as [x|]; [|done]. by destruct (has_index x).
Qed.

Lemma setBoundDeviceId_keeps_bound_has_index d s :
  bound_has_index (this s) → bound_has_index (this (setBoundDeviceId d s).1).
Proof.
  intros Hs. rewrite setBoundDeviceId_paths.
  destruct d as [x|]; cbn.
  - destruct (has_index x) eqn:Hx; [|done]. intros d' [= <-]. done.
  - intros d' [=].
Qed.

Section Lifetime.

Context {Work : Type} {collaborators : Collaborators Work}.
Variable strToBackendType : string → BackendType.


(** C7: for [0 <= rank < size], a group constructed with [rank] and [size]
    answers [getRank()] with [rank] and [getSize()] with [size], right
    after construction and after every history of member-function calls,
    whatever backend objects exist and whatever the calls do to them. *)
Theorem getRank_getSize_fixed_for_lifetime rank size options heap ops :
  0 ≤ rank < size →
  let s0 := {| this := ProcessGroup_new strToBackendType rank size options;
               backends := heap |} in
  getRank s0 = (s0, Ok rank) ∧
  getSize s0 = (s0, Ok size) ∧
  getRank (run ops s0) = (run ops s0, Ok rank) ∧
  getSize (run ops s0) = (run ops s0, Ok size).
Proof.
  intros _ s0. split; [done|]. split; [done|].
  assert (rank_ (this (run ops s0)) = rank ∧ size_ (this (run ops s0)) = size)
    as [Hr Hs].
  { apply (run_invariant (λ g, rank_ g = rank ∧ size_ g = size) (λ _, True));
      [| |by apply Forall_true|done].
    - intros dt bt b s _ [<- <-].
      destruct (setBackend_keeps_const_members dt bt b s) as (-> & -> & _). done.
    - intros d s _ [<- <-].
      destruct (setBoundDeviceId_keeps_const_members d s) as (-> & -> & _). done. }
  unfold getRank, getSize, gets. by rewrite Hr, Hs.
Qed.

(** C9: [setBoundDeviceId(device)] fails with "setBoundDeviceId must have
    an index", leaving the group as it was, when [device] is present and
    has no index; whenever it returns normally it has stored [device], and
    a stored device has an index.  So a group whose bound device has an
    index if set (as a group with no bound device does) keeps that
    property along every history of member-function calls. *)
Theorem setBoundDeviceId_bound_device_has_index :
  (∀ s d,
     has_index d = false →
     setBoundDeviceId (Some d) s =
       (s, Throw (c10_Error [MStr "setBoundDeviceId must have an index"]))) ∧
  (∀ s device s',
     setBoundDeviceId device s = (s', Ok tt) →
     getBoundDeviceId s' = (s', Ok device) ∧
     ∀ d, device = Some d → has_index d = true) ∧
  (∀ ops s,
     bound_has_index (this s) →
     bound_has_index (this (run ops s))).
Proof.
  split; [|split].
  - intros s d Hd. by rewrite setBoundDeviceId_paths, Hd.
  - intros s device s'. rewrite setBoundDeviceId_paths.
    destruct device as [x|].
    + destruct (has_index x) eqn:Hx; [|done].
      intros [= <-]. split; [done|]. by intros d [= <-].
    + intros [= <-]. split; [done|]. by intros d [=].
  - intros ops s Hs.
    apply (run_invariant bound_has_index (λ _, True));
      [| |by apply Forall_true|done].
    + intros dt bt b s' _ Hs' d.
      destruct (setBackend_keeps_const_members dt bt b s') as (_ & _ & _ & _ & ->).
      apply Hs'.
    + intros d s' _. apply setBoundDeviceId_keeps_bound_has_index.
Qed.

End Lifetime.

(** ** Barrier buffers and sequence numbers *)

Lemma elem_of_sequence_kinds bt :
  bt ∈ [GLOO; NCCL; UCC] ↔
  bool_decide (bt = GLOO) || bool_decide (bt = NCCL) || bool_decide (bt = UCC) = true.
Proof.
  rewrite !elem_of_cons, elem_of_nil.
  split.
  - by intros [->|[->|[->|[]]]].
  - destruct bt; cbn; try done; intros _; auto.
Qed.

Section Dispatch.

Context {Work : Type} {collaborators : Collaborators Work}.

(** C2, as amended: for a group whose only registered backend serves CPU,
    [barrier()] called with options that name no device hands the
    dispatcher a one-byte buffer requested on CPU, and returns what the
    dispatcher returns for it, provided the group's default backend type
    is not NCCL; when it is NCCL the buffer is requested on CUDA. *)
Theorem barrier_default_buffer s opts :
  only_CPU_backend (this s) →
  device opts = None →
  barrier opts s = run_external (op_call (barrier_call (this s) opts)) s ∧
  (backendType_ (this s) ≠ NCCL →
     at_.device_of (call_tensor (barrier_call (this s) opts)) =
       Some (Device_of_type CPU)) ∧
  (backendType_ (this s) = NCCL →
     at_.device_of (call_tensor (barrier_call (this s) opts)) =
       Some (Device_of_type CUDA)).
Proof.
  intros _ Hdev. split; [done|].
  unfold barrier_call, barrier_tensor; cbn. rewrite Hdev.
  split; intros Hbt; case_bool_decide; done.
Qed.

(** C3: when the group's default backend type is none of GLOO, NCCL and
    UCC, [setSequenceNumberForGroup()] and [getSequenceNumberForGroup()]
    both throw the error "ProcessGroup <backend name> does not yet support
    sequence numbers." and change nothing; no number is returned.  When it
    is one of the three, each is [getDefaultBackend()] followed by the
    same-named virtual method of the backend found: with a live default
    backend attached, the result is that backend's. *)
Theorem sequence_numbers_only_for_supported_kinds s :
  (backendType_ (this s) ∉ [GLOO; NCCL; UCC] →
     ∀ name, getBackendName s = (s, Ok name) →
     setSequenceNumberForGroup s =
       (s, Throw (c10_Error
          [MStr ("ProcessGroup " +:+ name +:+
                 " does not yet support sequence numbers.")])) ∧
     getSequenceNumberForGroup s =
       (s, Throw (c10_Error
          [MStr ("ProcessGroup " +:+ name +:+
                 " does not yet support sequence numbers.")]))) ∧
  (backendType_ (this s) ∈ [GLOO; NCCL; UCC] →
     setSequenceNumberForGroup s =
       (p ← getDefaultBackend;
        virtual_call p Backend_setSequenceNumberForGroup) s ∧
     getSequenceNumberForGroup s =
       (p ← getDefaultBackend;
        virtual_call p Backend_getSequenceNumberForGroup) s ∧
     ∀ p, getDefaultBackend s = (s, Ok p) →
          is_Some (backends s !! p) →
          setSequenceNumberForGroup s =
            run_external (Backend_setSequenceNumberForGroup p) s ∧
          getSequenceNumberForGroup s =
            run_external (Backend_getSequenceNumberForGroup p) s).
Proof.
  split.
  - intros Hbt name [= <-].
    rewrite elem_of_sequence_kinds in Hbt. apply not_true_is_false in Hbt.
    unfold setSequenceNumberForGroup,
      getSequenceNumberForGroup, getBackendType, getBackendName,
      mbind, M_bind, gets; cbn.
    by rewrite Hbt.
  - intros Hbt. rewrite elem_of_sequence_kinds in Hbt.
    assert (setSequenceNumberForGroup s =
            (p ← getDefaultBackend;
             virtual_call p Backend_setSequenceNumberForGroup) s) as Hset.
    { unfold setSequenceNumberForGroup, getBackendType, gets.
      unfold mbind at 1, M_bind at 1. by rewrite Hbt. }
    assert (getSequenceNumberForGroup s =
            (p ← getDefaultBackend;
             virtual_call p Backend_getSequenceNumberForGroup) s) as Hget.
    { unfold getSequenceNumberForGroup, getBackendType, gets.
      unfold mbind at 1, M_bind at 1. by rewrite Hbt. }
    split; [done|]. split; [done|].
    intros p Hp [b Hb]. rewrite Hset, Hget.
    rewrite !(bind_Ok _ _ _ _ _ Hp).
    unfold virtual_call, load, mbind, M_bind. by rewrite Hb.
Qed.

(** C10: for every group state, every [BarrierOptions] and either value of
    [wait_all_ranks], [monitoredBarrier] hands the dispatcher an empty
    buffer requested on CPU, and does nothing else. *)
Theorem monitoredBarrier_buffer_on_CPU s opts wait_all_ranks :
  monitoredBarrier opts wait_all_ranks s =
    discard (run_external (op_call (monitoredBarrier_call opts wait_all_ranks))) s ∧
  call_tensor (monitoredBarrier_call opts wait_all_ranks) =
    at_.empty [0] (at_.with_device (Device_of_type CPU) at_.TensorOptions_default) ∧
  at_.device_of (call_tensor (monitoredBarrier_call opts wait_all_ranks)) =
    Some (Device_of_type CPU).
Proof. done. Qed.

End Dispatch.

(** ** The statements at concrete groups *)

Lemma only_CPU_backend_with_gloo bt name :
  only_CPU_backend (this (with_gloo_on_CPU bt name)).
Proof.
  exists GLOO, 1%positive. unfold with_gloo_on_CPU.
  rewrite setBackend_this; cbn.
  split; [apply (right_id_L ∅ (∪))|]. done.
Qed.

(** C2, as stated, fails: a group whose default backend type is NCCL and
    whose only registered backend is a GLOO instance serving CPU calls the
    dispatcher with a buffer requested on CUDA. *)
Lemma barrier_CPU_buffer_fails_for_NCCL_default :
  ¬ (∀ s opts,
       only_CPU_backend (this s) →
       device opts = None →
       ∃ c, barrier (collaborators := counter_backend) opts s = run_external (echo_call c) s ∧
            at_.device_of (call_tensor c) = Some (Device_of_type CPU)).
Proof.
  intros Hclaim.
  destruct (Hclaim (with_gloo_on_CPU NCCL "nccl") default_BarrierOptions)
    as (c & Hcall & Hdev).
  - apply only_CPU_backend_with_gloo.
  - reflexivity.
  - unfold barrier, run_external, echo_call, mbind, M_bind, gets in Hcall.
    cbn in Hcall. injection Hcall as <-. discriminate Hdev.
Qed.

Lemma barrier_default_buffer_witness :
  at_.device_of
    (call_tensor (barrier_call (this (with_gloo_on_CPU GLOO "gloo"))
                    default_BarrierOptions)) =
  Some (Device_of_type CPU).
Proof.
  destruct (barrier_default_buffer (collaborators := counter_backend)
              (with_gloo_on_CPU GLOO "gloo")
              default_BarrierOptions) as (_ & Hcpu & _).
  - apply only_CPU_backend_with_gloo.
  - reflexivity.
  - apply Hcpu. discriminate.
Defined.

Lemma sequence_numbers_only_for_supported_kinds_witness :
  (setSequenceNumberForGroup (collaborators := counter_backend) (start MPI "mpi") =
     (start MPI "mpi",
      Throw (c10_Error
        [MStr "ProcessGroup mpi does not yet support sequence numbers."])) ∧
   getSequenceNumberForGroup (collaborators := counter_backend) (start MPI "mpi") =
     (start MPI "mpi",
      Throw (c10_Error
        [MStr "ProcessGroup mpi does not yet support sequence numbers."]))) ∧
  getSequenceNumberForGroup (collaborators := counter_backend)
    (with_gloo_on_CPU GLOO "gloo") =
  run_external (counter_getSequenceNumberForGroup 1%positive)
    (with_gloo_on_CPU GLOO "gloo").
Proof.
  split.
  - refine (proj1 (sequence_numbers_only_for_supported_kinds
                     (collaborators := counter_backend) (start MPI "mpi"))
              _ "mpi" _).
    + cbn. rewrite !elem_of_cons, elem_of_nil. by intros [|[|[|[]]]].
    + reflexivity.
  - apply (proj2 (sequence_numbers_only_for_supported_kinds
                    (collaborators := counter_backend)
                    (with_gloo_on_CPU GLOO "gloo"))).
    + cbn. rewrite elem_of_cons. by left.
    + reflexivity.
    + eexists. reflexivity.
Defined.

Lemma setBackend_one_instance_per_backend_type_witness :
  let s1 := (setBackend CPU GLOO (Some 1%positive) (start GLOO "gloo")).1 in
  let s2 := (setBackend CUDA GLOO (Some 2%positive) s1).1 in
  (∃ p, getBackend_deviceType CPU s2 = (s2, Ok p) ∧
        getBackend_deviceType CUDA s2 = (s2, Ok p)) ∧
  backendTypeToBackend_
    (this (run (collaborators := counter_backend) [call_setBackend CUDA GLOO (Some 2%positive)] s1)) !! GLOO
  = Some 1%positive.
Proof.
  intros s1 s2.
  destruct (setBackend_one_instance_per_backend_type (collaborators := counter_backend))
    as [Hcalls Hstable].
  split.
  - destruct (Hcalls (start GLOO "gloo") CPU CUDA GLOO 1%positive 2%positive
                s1 (Ok tt) s2 (Ok tt))
      as (_ & _ & p & H1 & H2 & _).
    + intros bt p. cbn. by rewrite lookup_empty.
    + eexists. reflexivity.
    + eexists. reflexivity.
    + rewrite setBackend_paths. reflexivity.
    + rewrite setBackend_paths. reflexivity.
    + by exists p.
  - apply Hstable. reflexivity.
Defined.

Lemma getBackend_getDefaultBackend_registered_or_not_found_witness :
  getBackend NCCL (with_gloo_on_CPU GLOO "gloo") =
    (with_gloo_on_CPU GLOO "gloo",
     Throw (c10_Error [MStr "Could not find backend type ";
                       MBackendType NCCL; MStr "."])) ∧
  backendTypeToBackend_
    (this (run (collaborators := counter_backend) [call_setBackend CUDA NCCL None; call_getBackend NCCL]
             (with_gloo_on_CPU GLOO "gloo"))) !! NCCL = None ∧
  getBackend GLOO (with_gloo_on_CPU GLOO "gloo") =
    (with_gloo_on_CPU GLOO "gloo", Ok 1%positive) ∧
  getDefaultBackend (start NCCL "nccl") =
    (start NCCL "nccl",
     Throw (c10_Error [MStr "Could not find the default backend type ";
                       MBackendType NCCL;
                       MStr " for Process Group with name ";
                       MStr "nccl";
                       MStr "."])) ∧
  getDefaultBackend (with_gloo_on_CPU GLOO "gloo") =
    (with_gloo_on_CPU GLOO "gloo", Ok 1%positive).
Proof.
  destruct (getBackend_getDefaultBackend_registered_or_not_found (collaborators := counter_backend))
    as (Hnone & Hnever & Hsome & Hdnone & Hdsome).
  split; [|split; [|split; [|split]]].
  - apply Hnone. reflexivity.
  - apply Hnever; [reflexivity|].
    repeat constructor; cbn; tauto.
  - apply Hsome. reflexivity.
  - apply (Hdnone (start NCCL "nccl") "nccl"); reflexivity.
  - apply Hdsome. reflexivity.
Defined.

Lemma getRank_getSize_fixed_for_lifetime_witness :
  let s0 := {| this := ProcessGroup_new (λ _, GLOO) 1 4
                         {| timeout := kProcessGroupDefaultTimeout;
                            backend := "gloo" |};
               backends := {[ 1%positive := unbound_backend ]} |} in
  let s := run (collaborators := counter_backend)
             [call_setBoundDeviceId (Some (mkDevice CUDA 0));
              call_setBackend CPU GLOO (Some 1%positive);
              call_setBackend CUDA GLOO None] s0 in
  getRank s0 = (s0, Ok 1) ∧ getSize s0 = (s0, Ok 4) ∧
  getRank s = (s, Ok 1) ∧ getSize s = (s, Ok 4).
Proof.
  apply (getRank_getSize_fixed_for_lifetime (collaborators := counter_backend)
           (λ _, GLOO) 1 4).
  lia.
Defined.

Lemma setBoundDeviceId_bound_device_has_index_witness :
  setBoundDeviceId (Some (Device_of_type CUDA)) (start NCCL "nccl") =
    (start NCCL "nccl",
     Throw (c10_Error [MStr "setBoundDeviceId must have an index"])) ∧
  (getBoundDeviceId (setBoundDeviceId (Some (mkDevice CUDA 0)) (start NCCL "nccl")).1 =
     ((setBoundDeviceId (Some (mkDevice CUDA 0)) (start NCCL "nccl")).1,
      Ok (Some (mkDevice CUDA 0))) ∧
   has_index (mkDevice CUDA 0) = true) ∧
  bound_has_index
    (this (run (collaborators := counter_backend)
             [call_setBoundDeviceId (Some (Device_of_type CUDA));
              call_setBoundDeviceId (Some (mkDevice CUDA 3))]
             (start NCCL "nccl"))).
Proof.
  destruct (setBoundDeviceId_bound_device_has_index (collaborators := counter_backend))
    as (Hfail & Hstored & Hkept).
  split; [|split].
  - apply Hfail. reflexivity.
  - destruct (Hstored (start NCCL "nccl") (Some (mkDevice CUDA 0))
                (setBoundDeviceId (Some (mkDevice CUDA 0)) (start NCCL "nccl")).1)
      as [Hget Hidx]; [reflexivity|].
    split; [exact Hget|]. by apply Hidx.
  - apply Hkept. intros d. discriminate.
Defined.

(** * The rest of the header *)

(** ** Histories over the whole interface *)

Section InterfaceHistories.

Context {Work : Type}.
Context {collaborators : Collaborators Work} {dispatcher : Dispatcher Work}.

Lemma readonly_issue c : readonly (issue c).
Proof.
  destruct c; cbn;
    unfold broadcast, allreduce, allreduce_coalesced, reduce, allgather,
      _allgather_base, allgather_coalesced, allgather_into_tensor_coalesced,
      gather, scatter, reduce_scatter, _reduce_scatter_base,
      reduce_scatter_tensor_coalesced, alltoall_base, alltoall, send, recv,
      recvAnysource;
    readonly_steps.
Qed.

Lemma exec_call_this c s :
  this (exec_call c s).1 =
  match c with
  | member (call_setBackend dt bt b) => this (setBackend dt bt b s).1
  | member (call_setBoundDeviceId d) => this (setBoundDeviceId d s).1
  | _ => this s
  end.
Proof.
  destruct c as [o|c]; cbn.
  - destruct (writes_group o) eqn:Hw.
    + by destruct o.
    + rewrite readonly_exec by done. by destruct o.
  - apply readonly_discard, readonly_issue.
Qed.

(** A property of the group that [setBackend] and [setBoundDeviceId]
    keep, for the calls a history is allowed to make, holds along the
    history, collectives included. *)
Lemma run_calls_invariant (P : ProcessGroup → Prop) (allowed : Call → Prop) :
  (∀ dt bt b s, allowed (member (call_setBackend dt bt b)) → P (this s) →
     P (this (setBackend dt bt b s).1)) →
  (∀ d s, allowed (member (call_setBoundDeviceId d)) → P (this s) →
     P (this (setBoundDeviceId d s).1)) →
  ∀ calls s, Forall allowed calls → P (this s) → P (this (run_calls calls s)).
Proof.
  intros Hset Hbound calls.
  induction calls as [|c calls IH]; intros s Hall HP; [done|].
  inversion Hall as [|? ? Hc Hcalls]; subst.
  assert (P (this (exec_call c s).1)) as Hstep.
  { rewrite exec_call_this.
    destruct c as [[]|]; eauto. }
  cbn. destruct (exec_call c s) as [s' [[]|e|u]]; cbn in *; eauto.
Qed.

End InterfaceHistories.

(** ** Repeating and combining registrations *)

Lemma union_twice (dt : DeviceType) (ds : gset DeviceType) :
  {[dt]} ∪ ({[dt]} ∪ ds) = {[dt]} ∪ ds.
Proof. by rewrite (assoc_L (∪)), (idemp_L (∪)). Qed.

Lemma recorded_again dt bt g :
  recorded dt bt (recorded dt bt g) = recorded dt bt g.
Proof.
  destruct g; unfold recorded, set_deviceTypes, set_deviceTypeToBackendType; cbn.
  f_equal; first [apply insert_insert_eq | apply union_twice].
Qed.

Lemma serve_recorded_again dt bt p g :
  serve dt p (recorded dt bt (serve dt p (recorded dt bt g))) =
  serve dt p (recorded dt bt g).
Proof.
  destruct g; unfold serve, recorded, set_deviceTypes,
    set_deviceTypeToBackendType, set_deviceTypeToBackend; cbn.
  f_equal; first [apply insert_insert_eq | apply union_twice].
Qed.

Lemma serve_recorded_registered dt bt q g :
  serve dt q (recorded dt bt
    (set_backendTypeToBackend <[bt := q]> (serve dt q (recorded dt bt g)))) =
  set_backendTypeToBackend <[bt := q]> (serve dt q (recorded dt bt g)).
Proof.
  destruct g; unfold serve, recorded, set_deviceTypes,
    set_deviceTypeToBackendType, set_deviceTypeToBackend,
    set_backendTypeToBackend; cbn.
  f_equal; first [apply insert_insert_eq | apply union_twice].
Qed.

(** X1: [setBackend] is idempotent.  Repeating a call with the same
    arguments right after it ends the same way (same return, same
    exception, same undefined access) and leaves the state the first call
    left. *)
Theorem setBackend_idempotent dt bt b s :
  setBackend dt bt b (setBackend dt bt b s).1 = setBackend dt bt b s.
Proof.
  rewrite (setBackend_paths dt bt b s).
  destruct (backendTypeToBackend_ (this s) !! bt) as [p|] eqn:Hbt; cbn.
  - transitivity
      (setBackend dt bt b
         {| this := serve dt p (recorded dt bt (this s)); backends := backends s |}).
    + f_equal.
      destruct (backends s !! p); [|done].
      destruct b as [q|]; [|done].
      destruct (backends s !! q); [|done].
      by case_bool_decide.
    + rewrite setBackend_paths; cbn. rewrite Hbt; cbn.
      by rewrite serve_recorded_again.
  - destruct b as [q|]; cbn.
    + destruct (backends s !! q) as [nb|] eqn:Hq.
      * rewrite setBackend_paths; cbn.
        rewrite !lookup_insert_eq; cbn.
        rewrite bool_decide_eq_true_2 by done.
        by rewrite serve_recorded_registered.
      * rewrite setBackend_paths; cbn.
        rewrite lookup_insert_eq; cbn. rewrite Hq.
        by rewrite serve_recorded_registered.
    + rewrite setBackend_paths; cbn. rewrite Hbt.
      by rewrite recorded_again.
Qed.

(** X2: when [backendType] is already registered and an instance is
    supplied, [setBackend] never takes the supplied instance: the device
    type is served by the registered instance, the backend-type map and
    every backend object stay as they were, and the call returns normally
    exactly when the bound device of the registered instance equals that
    of the supplied one; otherwise it throws the check's error. *)
Theorem setBackend_reuse_ignores_supplied_instance dt bt p q eb nb s :
  backendTypeToBackend_ (this s) !! bt = Some p →
  backends s !! p = Some eb →
  backends s !! q = Some nb →
  ∃ s',
    setBackend dt bt (Some q) s =
      (s', if bool_decide (backend_bound_device_id_ eb = backend_bound_device_id_ nb)
           then Ok tt else Throw (c10_Error [])) ∧
    deviceTypeToBackend_ (this s') !! dt = Some p ∧
    backendTypeToBackend_ (this s') = backendTypeToBackend_ (this s) ∧
    backends s' = backends s.
Proof.
  intros Hbt Hp Hq. rewrite setBackend_paths, Hbt; cbn. rewrite Hp, Hq.
  eexists. split; [by case_bool_decide|]. cbn.
  split; [apply lookup_insert_eq|done].
Qed.

Lemma setBackend_reuse_ignores_supplied_instance_witness :
  ∃ s',
    setBackend CUDA GLOO (Some 2%positive) (with_gloo_on_CPU GLOO "gloo") =
      (s', Ok tt) ∧
    deviceTypeToBackend_ (this s') !! CUDA = Some 1%positive ∧
    backendTypeToBackend_ (this s') =
      backendTypeToBackend_ (this (with_gloo_on_CPU GLOO "gloo")) ∧
    backends s' = backends (with_gloo_on_CPU GLOO "gloo").
Proof.
  apply (setBackend_reuse_ignores_supplied_instance CUDA GLOO 1%positive
           2%positive unbound_backend unbound_backend
           (with_gloo_on_CPU GLOO "gloo")); reflexivity.
Defined.

(** X3: registering a device type again, under a backend type that has
    no instance and without supplying one, returns normally and records
    the new backend type for the device type, but the device-type map
    still holds the instance that served the device type before, while
    [getBackend] of the recorded backend type fails: the maps then
    disagree about the device type. *)
Theorem setBackend_without_instance_leaves_old_instance dt bt p s :
  deviceTypeToBackend_ (this s) !! dt = Some p →
  backendTypeToBackend_ (this s) !! bt = None →
  ∃ s',
    setBackend dt bt None s = (s', Ok tt) ∧
    deviceTypeToBackendType_ (this s') !! dt = Some bt ∧
    deviceTypeToBackend_ (this s') !! dt = Some p ∧
    getBackend bt s' =
      (s', Throw (c10_Error [MStr "Could not find backend type ";
                             MBackendType bt; MStr "."])) ∧
    backends s' = backends s.
Proof.
  intros Hdt Hbt. rewrite setBackend_paths, Hbt.
  eexists. split; [done|]. cbn.
  split; [apply lookup_insert_eq|]. split; [done|]. split; [|done].
  rewrite getBackend_paths; cbn. by rewrite Hbt.
Qed.

Lemma setBackend_without_instance_leaves_old_instance_witness :
  ∃ s',
    setBackend CPU NCCL None (with_gloo_on_CPU GLOO "gloo") = (s', Ok tt) ∧
    deviceTypeToBackendType_ (this s') !! CPU = Some NCCL ∧
    deviceTypeToBackend_ (this s') !! CPU = Some 1%positive ∧
    getBackend NCCL s' =
      (s', Throw (c10_Error [MStr "Could not find backend type ";
                             MBackendType NCCL; MStr "."])) ∧
    backends s' = backends (with_gloo_on_CPU GLOO "gloo").
Proof.
  apply (setBackend_without_instance_leaves_old_instance CPU NCCL 1%positive
           (with_gloo_on_CPU GLOO "gloo")); reflexivity.
Defined.

Lemma setBoundDeviceId_with_index d s :
  (∀ x, d = Some x → has_index x = true) →
  setBoundDeviceId d s =
    ({| this := set_bound_device_id d (this s); backends := backends s |}, Ok tt).
Proof.
  intros Hd. rewrite setBoundDeviceId_paths.
  destruct d as [x|]; [|done]. by rewrite (Hd x).
Qed.

(** X4: the group's bound device reaches a backend only at registration.
    For a backend type not registered yet and a live instance: if the
    instance is attached first and the group is bound to [d] afterwards,
    the instance still reports the bound device the group had at
    registration while the group reports [d]; in the other order both
    report [d]. *)
Theorem bound_device_reaches_backend_only_at_registration dt bt p b d s :
  backendTypeToBackend_ (this s) !! bt = None →
  backends s !! p = Some b →
  (∀ x, d = Some x → has_index x = true) →
  (let s2 := (setBoundDeviceId d (setBackend dt bt (Some p) s).1).1 in
   Backend_getBoundDeviceId p s2 = (s2, Ok (bound_device_id_ (this s))) ∧
   getBoundDeviceId s2 = (s2, Ok d)) ∧
  (let s2 := (setBackend dt bt (Some p) (setBoundDeviceId d s).1).1 in
   Backend_getBoundDeviceId p s2 = (s2, Ok d) ∧
   getBoundDeviceId s2 = (s2, Ok d)).
Proof.
  intros Hbt Hp Hd.
  split; cbn; rewrite (setBoundDeviceId_with_index d) by done; cbn.
  - rewrite setBackend_paths, Hbt, Hp; cbn.
    unfold Backend_getBoundDeviceId, load, mbind, M_bind; cbn.
    by rewrite lookup_insert_eq.
  - rewrite setBackend_paths; cbn. rewrite Hbt, Hp; cbn.
    unfold Backend_getBoundDeviceId, load, mbind, M_bind; cbn.
    by rewrite lookup_insert_eq.
Qed.

Lemma bound_device_reaches_backend_only_at_registration_witness :
  (let s2 := (setBoundDeviceId (Some (mkDevice CUDA 0))
                (setBackend CUDA NCCL (Some 1%positive) (start NCCL "nccl")).1).1 in
   Backend_getBoundDeviceId 1%positive s2 = (s2, Ok None) ∧
   getBoundDeviceId s2 = (s2, Ok (Some (mkDevice CUDA 0)))) ∧
  (let s2 := (setBackend CUDA NCCL (Some 1%positive)
                (setBoundDeviceId (Some (mkDevice CUDA 0)) (start NCCL "nccl")).1).1 in
   Backend_getBoundDeviceId 1%positive s2 = (s2, Ok (Some (mkDevice CUDA 0))) ∧
   getBoundDeviceId s2 = (s2, Ok (Some (mkDevice CUDA 0)))).
Proof.
  apply (bound_device_reaches_backend_only_at_registration CUDA NCCL 1%positive
           unbound_backend (Some (mkDevice CUDA 0)) (start NCCL "nccl"));
    [reflexivity..|].
  by intros x [= <-].
Defined.

(** ** Reading the registry *)

Lemma Device_of_type_inj : Inj (=) (=) Device_of_type.
Proof. by intros t1 t2 [=]. Qed.

(** X5: [getDeviceTypes] returns, without repetition, exactly one device
    per device type in the device-type set, and none of the devices has an
    index: a device is in the result if and only if it has no index and
    its type is in the set. *)
Theorem getDeviceTypes_one_device_without_index_per_type s :
  ∃ l, getDeviceTypes s = (s, Ok l) ∧
       NoDup l ∧
       length l = size (deviceTypes_ (this s)) ∧
       ∀ d, d ∈ l ↔ has_index d = false ∧ type_ d ∈ deviceTypes_ (this s).
Proof.
  pose proof Device_of_type_inj.
  eexists. split; [reflexivity|].
  split; [apply (NoDup_fmap_2 _), NoDup_elements|].
  split; [by rewrite length_fmap|].
  intros d. rewrite list_elem_of_fmap. split.
  - intros (t & -> & Ht). split; [done|]. by apply elem_of_elements.
  - intros [Hidx Ht]. exists (type_ d). split; [|by apply elem_of_elements].
    destruct d as [t i]; unfold has_index, Device_of_type in *; cbn in *.
    apply bool_decide_eq_false in Hidx. f_equal.
    destruct (decide (i = -1)); [done|]. by destruct Hidx.
Qed.

Section MoreOfTheRegistry.

Context {Work : Type}.
Context {collaborators : Collaborators Work} {dispatcher : Dispatcher Work}.

(** X6: [hasBackends] answers true after every [setBackend] call, however
    the call ends and even when no instance was supplied or registered,
    and once it answers true it does so after every history of calls; a
    group whose device-type-to-backend-type map is empty answers false. *)
Theorem hasBackends_true_after_setBackend :
  (∀ s, deviceTypeToBackendType_ (this s) = ∅ → hasBackends s = (s, Ok false)) ∧
  (∀ s dt bt b,
     hasBackends (setBackend dt bt b s).1 = ((setBackend dt bt b s).1, Ok true)) ∧
  (∀ calls s,
     hasBackends s = (s, Ok true) →
     hasBackends (run_calls calls s) = (run_calls calls s, Ok true)).
Proof.
  assert (∀ s, hasBackends s = (s, Ok true) ↔ deviceTypeToBackendType_ (this s) ≠ ∅)
    as Htrue.
  { intros s. unfold hasBackends, gets. split.
    - intros [= H]. by apply bool_decide_eq_true in H.
    - intros H. by rewrite bool_decide_eq_true_2. }
  assert (∀ s dt bt b, deviceTypeToBackendType_ (this (setBackend dt bt b s).1) ≠ ∅)
    as Hset.
  { intros s dt bt b. rewrite setBackend_this.
    destruct (backendTypeToBackend_ (this s) !! bt), b; cbn;
      apply insert_non_empty. }
  split; [|split].
  - intros s Hs. unfold hasBackends, gets. by rewrite Hs.
  - intros s dt bt b. by apply Htrue.
  - intros calls s Hs. apply Htrue. apply Htrue in Hs.
    apply (run_calls_invariant (λ g, deviceTypeToBackendType_ g ≠ ∅) (λ _, True));
      [| |by apply Forall_true|done].
    + intros dt bt b s' _ _. apply Hset.
    + intros d s' _. rewrite setBoundDeviceId_paths.
      destruct d as [x|]; [|done]. by destruct (has_index x).
Qed.

End MoreOfTheRegistry.

(** ** What every history keeps *)

Lemma setBoundDeviceId_this d s :
  this (setBoundDeviceId d s).1 = this s ∨
  this (setBoundDeviceId d s).1 = set_bound_device_id d (this s).
Proof.
  rewrite setBoundDeviceId_paths.
  destruct d as [x|]; [|by right]. destruct (has_index x); [by right|by left].
Qed.

Lemma setBackend_keeps_registry_indexed dt bt b s :
  registry_indexed (this s) → registry_indexed (this (setBackend dt bt b s).1).
Proof.
  intros [Hdom Hserved]. rewrite setBackend_this. unfold registry_indexed.
  destruct (backendTypeToBackend_ (this s) !! bt), b; cbn;
    rewrite ?dom_insert_L, Hdom; (split; [done|]);
    first [by apply union_mono_l | by apply union_subseteq_r'].
Qed.

Lemma setBackend_keeps_served_registered dt bt b s :
  served_registered (this s) → served_registered (this (setBackend dt bt b s).1).
Proof.
  intros Hs. rewrite setBackend_this. unfold served_registered.
  destruct (backendTypeToBackend_ (this s) !! bt) as [p|] eqn:Hbt.
  - assert (∀ dt' p', <[dt:=p]> (deviceTypeToBackend_ (this s)) !! dt' = Some p' →
                      ∃ bt', backendTypeToBackend_ (this s) !! bt' = Some p') as H.
    { intros dt' p'. rewrite lookup_insert. case_decide; [|apply Hs].
      intros [= <-]. eauto. }
    by destruct b.
  - destruct b as [q|]; cbn; [|done].
    intros dt' p'. rewrite lookup_insert. case_decide.
    + intros [= <-]. exists bt. apply lookup_insert_eq.
    + intros Hp'. destruct (Hs _ _ Hp') as [bt' Hbt']. exists bt'.
      rewrite lookup_insert_ne; [done|]. congruence.
Qed.

Lemma setBackend_grows dt bt b s :
  deviceTypes_ (this s) ⊆ deviceTypes_ (this (setBackend dt bt b s).1) ∧
  dom (deviceTypeToBackendType_ (this s)) ⊆
    dom (deviceTypeToBackendType_ (this (setBackend dt bt b s).1)) ∧
  dom (deviceTypeToBackend_ (this s)) ⊆
    dom (deviceTypeToBackend_ (this (setBackend dt bt b s).1)) ∧
  backendTypeToBackend_ (this s) ⊆
    backendTypeToBackend_ (this (setBackend dt bt b s).1).
Proof.
  rewrite setBackend_this.
  destruct (backendTypeToBackend_ (this s) !! bt) as [p|] eqn:Hbt, b as [q|];
    cbn; rewrite ?dom_insert_L;
    (split; [set_solver|split; [set_solver|split; [set_solver|]]]);
    try done.
  by apply insert_subseteq.
Qed.

Section InterfaceInvariants.

Context {Work : Type}.
Context {collaborators : Collaborators Work} {dispatcher : Dispatcher Work}.

Lemma run_calls_grows calls s :
  deviceTypes_ (this s) ⊆ deviceTypes_ (this (run_calls calls s)) ∧
  dom (deviceTypeToBackendType_ (this s)) ⊆
    dom (deviceTypeToBackendType_ (this (run_calls calls s))) ∧
  dom (deviceTypeToBackend_ (this s)) ⊆
    dom (deviceTypeToBackend_ (this (run_calls calls s))) ∧
  backendTypeToBackend_ (this s) ⊆ backendTypeToBackend_ (this (run_calls calls s)).
Proof.
  apply (run_calls_invariant
           (λ g, deviceTypes_ (this s) ⊆ deviceTypes_ g ∧
                 dom (deviceTypeToBackendType_ (this s)) ⊆
                   dom (deviceTypeToBackendType_ g) ∧
                 dom (deviceTypeToBackend_ (this s)) ⊆ dom (deviceTypeToBackend_ g) ∧
                 backendTypeToBackend_ (this s) ⊆ backendTypeToBackend_ g)
           (λ _, True));
    [| |by apply Forall_true|done].
  - intros dt bt b s' _ (H1 & H2 & H3 & H4).
    destruct (setBackend_grows dt bt b s') as (G1 & G2 & G3 & G4).
    repeat split; by etrans.
  - intros d s' _ H. by destruct (setBoundDeviceId_this d s') as [-> | ->].
Qed.

Lemma run_calls_keeps_registered calls s bt p :
  backendTypeToBackend_ (this s) !! bt = Some p →
  backendTypeToBackend_ (this (run_calls calls s)) !! bt = Some p.
Proof.
  intros Hbt. destruct (run_calls_grows calls s) as (_ & _ & _ & Hsub).
  by eapply lookup_weaken.
Qed.

(** X7: along every history of calls to the interface, collectives
    included, the device-type set stays the set of device types that have
    a backend type recorded, and every device type that is served by an
    instance stays in it: [getDeviceTypes] lists exactly the device types
    [setBackend] was called for. *)
Theorem registry_indexed_along_histories calls s :
  registry_indexed (this s) → registry_indexed (this (run_calls calls s)).
Proof.
  intros Hs.
  apply (run_calls_invariant registry_indexed (λ _, True));
    [| |by apply Forall_true|done].
  - intros dt bt b s' _. apply setBackend_keeps_registry_indexed.
  - intros d s' _. by destruct (setBoundDeviceId_this d s') as [-> | ->].
Qed.

(** X8: along every history of calls to the interface, every instance
    that serves a device type is an instance registered under some
    backend type: no device type is ever served by an instance that
    [getBackend(BackendType)] cannot return. *)
Theorem served_registered_along_histories calls s :
  served_registered (this s) → served_registered (this (run_calls calls s)).
Proof.
  intros Hs.
  apply (run_calls_invariant served_registered (λ _, True));
    [| |by apply Forall_true|done].
  - intros dt bt b s' _. apply setBackend_keeps_served_registered.
  - intros d s' _. by destruct (setBoundDeviceId_this d s') as [-> | ->].
Qed.

(** X9: nothing is ever unregistered.  After every history of calls to
    the interface the device-type set, the device types with a recorded
    backend type and the device types served by an instance include those
    of before, and every backend type registered before is still
    registered with the same instance. *)
Theorem registry_only_grows calls s :
  deviceTypes_ (this s) ⊆ deviceTypes_ (this (run_calls calls s)) ∧
  dom (deviceTypeToBackendType_ (this s)) ⊆
    dom (deviceTypeToBackendType_ (this (run_calls calls s))) ∧
  dom (deviceTypeToBackend_ (this s)) ⊆
    dom (deviceTypeToBackend_ (this (run_calls calls s))) ∧
  backendTypeToBackend_ (this s) ⊆ backendTypeToBackend_ (this (run_calls calls s)).
Proof. apply run_calls_grows. Qed.

(** X10: the members fixed at construction stay fixed on the whole
    interface.  After every history of calls, collectives included,
    [getRank], [getSize], [getOptions], [getBackendName] and
    [getBackendType] return what they returned before it. *)
Theorem const_members_along_histories calls s :
  (getRank (run_calls calls s)).2 = (getRank s).2 ∧
  (getSize (run_calls calls s)).2 = (getSize s).2 ∧
  (getOptions (run_calls calls s)).2 = (getOptions s).2 ∧
  (getBackendName (run_calls calls s)).2 = (getBackendName s).2 ∧
  (getBackendType (run_calls calls s)).2 = (getBackendType s).2.
Proof.
  assert (rank_ (this (run_calls calls s)) = rank_ (this s) ∧
          size_ (this (run_calls calls s)) = size_ (this s) ∧
          options_ (this (run_calls calls s)) = options_ (this s) ∧
          backendType_ (this (run_calls calls s)) = backendType_ (this s))
    as (Hr & Hs & Ho & Hb).
  { apply (run_calls_invariant
             (λ g, rank_ g = rank_ (this s) ∧ size_ g = size_ (this s) ∧
                   options_ g = options_ (this s) ∧
                   backendType_ g = backendType_ (this s))
             (λ _, True));
      [| |by apply Forall_true|done].
    - intros dt bt b s' _ (<- & <- & <- & <-).
      destruct (setBackend_keeps_const_members dt bt b s')
        as (-> & -> & -> & -> & _). done.
    - intros d s' _ (<- & <- & <- & <-).
      destruct (setBoundDeviceId_keeps_const_members d s')
        as (-> & -> & -> & ->). done. }
  unfold getRank, getSize, getOptions, getBackendName, getBackendType, gets; cbn.
  by rewrite Hr, Hs, Ho, Hb.
Qed.

(** X11: [getBackendID(backendType)] fails with the error of
    [getBackend(backendType)] when no instance is registered under the
    backend type and otherwise returns the address of the registered
    instance; two backend types have the same identifier only if they are
    registered with the same instance, and an identifier once returned is
    returned again after every history of calls. *)
Theorem getBackendID_identifies_registered_instance :
  (∀ s bt,
     backendTypeToBackend_ (this s) !! bt = None →
     getBackendID bt s =
       (s, Throw (c10_Error [MStr "Could not find backend type ";
                             MBackendType bt; MStr "."]))) ∧
  (∀ s bt p,
     backendTypeToBackend_ (this s) !! bt = Some p →
     getBackendID bt s = (s, Ok (Z.pos p))) ∧
  (∀ s bt1 bt2 i,
     getBackendID bt1 s = (s, Ok i) →
     getBackendID bt2 s = (s, Ok i) →
     ∃ p, getBackend bt1 s = (s, Ok p) ∧ getBackend bt2 s = (s, Ok p)) ∧
  (∀ calls s bt i,
     getBackendID bt s = (s, Ok i) →
     getBackendID bt (run_calls calls s) = (run_calls calls s, Ok i)).
Proof.
  assert (∀ s bt, getBackendID bt s =
            match backendTypeToBackend_ (this s) !! bt with
            | Some p => (s, Ok (Z.pos p))
            | None => (s, Throw (c10_Error [MStr "Could not find backend type ";
                                            MBackendType bt; MStr "."]))
            end) as Hid.
  { intros s bt. unfold getBackendID, mbind, M_bind.
    rewrite getBackend_paths.
    by destruct (backendTypeToBackend_ (this s) !! bt). }
  split; [|split; [|split]].
  - intros s bt Hbt. rewrite Hid. unfold ptr in *. by rewrite Hbt.
  - intros s bt p Hbt. rewrite Hid. unfold ptr in *. by rewrite Hbt.
  - intros s bt1 bt2 i. rewrite !Hid, !getBackend_paths. unfold ptr in *.
    destruct (_ !! bt1) as [p1|]; [|done].
    destruct (_ !! bt2) as [p2|]; [|done].
    intros [= <-] [= ->]. eauto.
  - intros calls s bt i. rewrite !Hid. unfold ptr in *.
    destruct (_ !! bt) as [p|] eqn:Hbt at 1; [|done].
    intros [= <-].
    pose proof (run_calls_keeps_registered calls s bt p Hbt) as Hkept.
    unfold ptr in *. by rewrite Hkept.
Qed.

End InterfaceInvariants.

(** ** Calls that go to the default backend *)

Section DefaultBackend.

Context {Work : Type} {collaborators : Collaborators Work}.

(** X12: [registerOnCompletionHook], [waitForPendingWorks] and [hasHooks]
    go to the instance registered under the group's own backend type,
    whatever serves the device types.  When nothing is registered under
    it, each fails with the error of [getDefaultBackend] and no backend
    method is called, and so do the two sequence-number functions for a
    backend type that supports sequence numbers; when a live instance is
    registered, each is that instance's method of the same name. *)
Theorem hooks_go_to_the_default_backend :
  (∀ s hook,
     backendTypeToBackend_ (this s) !! backendType_ (this s) = None →
     ∃ e, getDefaultBackend s = (s, Throw e) ∧
          registerOnCompletionHook hook s = (s, Throw e) ∧
          waitForPendingWorks s = (s, Throw e) ∧
          hasHooks s = (s, Throw e) ∧
          (backendType_ (this s) ∈ [GLOO; NCCL; UCC] →
             setSequenceNumberForGroup s = (s, Throw e) ∧
             getSequenceNumberForGroup s = (s, Throw e))) ∧
  (∀ s hook p,
     backendTypeToBackend_ (this s) !! backendType_ (this s) = Some p →
     is_Some (backends s !! p) →
     registerOnCompletionHook hook s =
       run_external (Backend_registerOnCompletionHook hook p) s ∧
     waitForPendingWorks s = run_external (Backend_waitForPendingWorks p) s ∧
     hasHooks s = run_external (Backend_hasHooks p) s).
Proof.
  split.
  - intros s hook Hbt. eexists.
    assert (getDefaultBackend s = (s, Throw _)) as Hd
      by (rewrite getDefaultBackend_paths, Hbt; reflexivity).
    split; [exact Hd|].
    unfold registerOnCompletionHook, waitForPendingWorks, hasHooks.
    rewrite !(bind_Throw _ _ _ _ _ Hd).
    split; [done|]. split; [done|]. split; [done|].
    intros Hkind. apply elem_of_sequence_kinds in Hkind.
    split.
    + unfold setSequenceNumberForGroup, getBackendType, gets.
      unfold mbind at 1, M_bind at 1. rewrite Hkind.
      by rewrite (bind_Throw _ _ _ _ _ Hd).
    + unfold getSequenceNumberForGroup, getBackendType, gets.
      unfold mbind at 1, M_bind at 1. rewrite Hkind.
      by rewrite (bind_Throw _ _ _ _ _ Hd).
  - intros s hook p Hbt [b Hb].
    assert (getDefaultBackend s = (s, Ok p)) as Hd
      by (by rewrite getDefaultBackend_paths, Hbt).
    unfold registerOnCompletionHook, waitForPendingWorks, hasHooks.
    rewrite !(bind_Ok _ _ _ _ _ Hd).
    unfold virtual_call, load, mbind, M_bind. by rewrite Hb.
Qed.


End DefaultBackend.

(** ** Outcomes of [setBackend] *)

(** X14: the only exception [setBackend] throws is the error of the
    bound-device check, and only when the backend type was registered
    before the call and an instance was supplied.  In a group whose
    registered pointers are live, called with a live instance or none, the
    only undefined access is the read of the absent instance in the reuse
    branch: with an instance supplied the call is always defined. *)
Theorem setBackend_outcomes dt bt b s :
  (∀ e, (setBackend dt bt b s).2 = Throw e →
        e = c10_Error [] ∧
        is_Some (backendTypeToBackend_ (this s) !! bt) ∧ is_Some b) ∧
  (registry_live s →
   (∀ q, b = Some q → is_Some (backends s !! q)) →
   ∀ u, (setBackend dt bt b s).2 = Undefined u →
        u = AbsentOptionalValue ∧
        is_Some (backendTypeToBackend_ (this s) !! bt) ∧ b = None).
Proof.
  rewrite setBackend_paths. split.
  - intros e.
    destruct (backendTypeToBackend_ (this s) !! bt) as [p|]; cbn.
    + destruct (backends s !! p); [|done].
      destruct b as [q|]; [|done].
      destruct (backends s !! q); [|done].
      case_bool_decide; [done|]. intros [= <-]. eauto.
    + destruct b as [q|]; [|done]. by destruct (backends s !! q).
  - intros Hlive Hb u.
    destruct (backendTypeToBackend_ (this s) !! bt) as [p|] eqn:Hbt; cbn.
    + destruct (Hlive _ _ Hbt) as [eb ->].
      destruct b as [q|]; [|intros [= <-]; eauto].
      destruct (Hb q eq_refl) as [nb ->]. by case_bool_decide.
    + destruct b as [q|]; [|done].
      by destruct (Hb q eq_refl) as [nb ->].
Qed.

(** ** Collectives *)

Section CollectiveCalls.

Context {Work : Type} {dispatcher : Dispatcher Work}.

(** X15: [allgather_coalesced] and [allgather_into_tensor_coalesced] do
    not use their options: with the same tensors, any two option values,
    whatever their timeouts, make the same call and give the same
    result. *)
Theorem coalesced_allgathers_ignore_options :
  (∀ outputTensorLists inputTensors opts1 opts2,
     allgather_coalesced outputTensorLists inputTensors opts1 =
     allgather_coalesced outputTensorLists inputTensors opts2) ∧
  (∀ outputTensors inputTensors opts1 opts2,
     allgather_into_tensor_coalesced outputTensors inputTensors opts1 =
     allgather_into_tensor_coalesced outputTensors inputTensors opts2).
Proof. done. Qed.

End CollectiveCalls.

Section CollectivesAndRegistry.

Context {Work : Type}.
Context {collaborators : Collaborators Work} {dispatcher : Dispatcher Work}.


End CollectivesAndRegistry.

(** ** Live pointers *)

(** X17: a [setBackend] call that supplies a live instance, or none, in a
    group whose registered pointers are live keeps every registered
    pointer live, the newly registered one included, and removes no
    backend object. *)
Theorem setBackend_keeps_pointers_live dt bt b s :
  registry_live s →
  (∀ q, b = Some q → is_Some (backends s !! q)) →
  registry_live (setBackend dt bt b s).1 ∧
  ∀ p, is_Some (backends s !! p) → is_Some (backends (setBackend dt bt b s).1 !! p).
Proof.
  intros Hlive Hb. split; [by apply setBackend_keeps_registry_live|].
  intros p Hp. rewrite setBackend_paths.
  destruct (backendTypeToBackend_ (this s) !! bt) as [p0|]; cbn.
  - destruct (backends s !! p0); [|done].
    destruct b as [q|]; [|done]. destruct (backends s !! q); [|done].
    by case_bool_decide.
  - destruct b as [q|]; [|done].
    destruct (backends s !! q) as [nb|] eqn:Hq; [|done]. cbn.
    apply lookup_insert_is_Some'. by right.
Qed.

(** ** The statements of this part at concrete groups *)

Lemma registry_live_start bt name : registry_live (start bt name).
Proof. intros bt' p. cbn. by rewrite lookup_empty. Qed.

Lemma setBackend_keeps_pointers_live_witness :
  registry_live (with_gloo_on_CPU GLOO "gloo") ∧
  ∀ p, is_Some (backends (start GLOO "gloo") !! p) →
       is_Some (backends (with_gloo_on_CPU GLOO "gloo") !! p).
Proof.
  apply (setBackend_keeps_pointers_live CPU GLOO (Some 1%positive)
           (start GLOO "gloo")).
  - apply registry_live_start.
  - intros q [= <-]. eexists. reflexivity.
Defined.

Lemma hasBackends_true_after_setBackend_witness :
  hasBackends (start GLOO "gloo") = (start GLOO "gloo", Ok false) ∧
  (let s := run_calls (collaborators := counter_backend)
              (dispatcher := no_operations)
              [member (call_setBoundDeviceId None);
               collective (call_send [] 1 0)]
              (setBackend CPU NCCL None (start GLOO "gloo")).1 in
   hasBackends s = (s, Ok true)).
Proof.
  destruct (hasBackends_true_after_setBackend (collaborators := counter_backend)
              (dispatcher := no_operations)) as (Hempty & Hset & Hkept).
  split.
  - apply Hempty. reflexivity.
  - apply Hkept, Hset.
Defined.

Lemma registry_indexed_along_histories_witness :
  registry_indexed
    (this (run_calls (collaborators := counter_backend)
             (dispatcher := no_operations)
             [member (call_setBackend CPU GLOO (Some 1%positive));
              member (call_setBackend CUDA NCCL None);
              collective (call_recvAnysource [] 0)]
             (start GLOO "gloo"))).
Proof.
  apply registry_indexed_along_histories.
  split; cbn; [apply dom_empty_L|]. by rewrite dom_empty_L.
Defined.

Lemma served_registered_along_histories_witness :
  served_registered
    (this (run_calls (collaborators := counter_backend)
             (dispatcher := no_operations)
             [member (call_setBackend CPU GLOO (Some 1%positive));
              member (call_setBackend CPU NCCL None);
              member (call_setBackend CUDA GLOO (Some 2%positive))]
             (start GLOO "gloo"))).
Proof.
  apply served_registered_along_histories.
  intros dt p. cbn. by rewrite lookup_empty.
Defined.

Lemma getBackendID_identifies_registered_instance_witness :
  getBackendID NCCL (with_gloo_on_CPU GLOO "gloo") =
    (with_gloo_on_CPU GLOO "gloo",
     Throw (c10_Error [MStr "Could not find backend type ";
                       MBackendType NCCL; MStr "."])) ∧
  getBackendID GLOO (with_gloo_on_CPU GLOO "gloo") =
    (with_gloo_on_CPU GLOO "gloo", Ok 1) ∧
  (∃ p, getBackend GLOO (with_gloo_on_CPU GLOO "gloo") =
          (with_gloo_on_CPU GLOO "gloo", Ok p)) ∧
  (let s := run_calls (collaborators := counter_backend)
              (dispatcher := no_operations)
              [member (call_setBackend CUDA GLOO (Some 2%positive))]
              (with_gloo_on_CPU GLOO "gloo") in
   getBackendID GLOO s = (s, Ok 1)).
Proof.
  destruct (getBackendID_identifies_registered_instance
              (collaborators := counter_backend) (dispatcher := no_operations))
    as (Hnone & Hsome & Hsame & Hkept).
  split; [|split; [|split]].
  - apply Hnone. reflexivity.
  - apply (Hsome _ GLOO 1%positive). reflexivity.
  - destruct (Hsame (with_gloo_on_CPU GLOO "gloo") GLOO GLOO 1) as (p & Hp & _);
      [apply (Hsome _ GLOO 1%positive); reflexivity..|].
    by exists p.
  - apply Hkept. apply (Hsome _ GLOO 1%positive). reflexivity.
Defined.

Lemma hooks_go_to_the_default_backend_witness :
  (∃ e, getDefaultBackend (with_gloo_on_CPU NCCL "nccl") =
          (with_gloo_on_CPU NCCL "nccl", Throw e) ∧
        hasHooks (collaborators := counter_backend) (with_gloo_on_CPU NCCL "nccl") =
          (with_gloo_on_CPU NCCL "nccl", Throw e) ∧
        getSequenceNumberForGroup (collaborators := counter_backend)
          (with_gloo_on_CPU NCCL "nccl") =
          (with_gloo_on_CPU NCCL "nccl", Throw e)) ∧
  hasHooks (collaborators := counter_backend) (with_gloo_on_CPU GLOO "gloo") =
    run_external (Backend_hasHooks (Collaborators := counter_backend) 1%positive)
      (with_gloo_on_CPU GLOO "gloo").
Proof.
  destruct (hooks_go_to_the_default_backend (collaborators := counter_backend))
    as [Hnone Hsome].
  split.
  - destruct (Hnone (with_gloo_on_CPU NCCL "nccl") 0%nat)
      as (e & Hd & _ & _ & Hh & Hseq); [reflexivity|].
    exists e. split; [exact Hd|]. split; [exact Hh|].
    apply Hseq. cbn. rewrite !elem_of_cons. auto.
  - apply (Hsome (with_gloo_on_CPU GLOO "gloo") 0%nat 1%positive);
      [reflexivity|]. eexists. reflexivity.
Defined.


Lemma setBackend_outcomes_witness :
  (∀ e, (setBackend CUDA GLOO (Some 2%positive) (with_gloo_on_CPU GLOO "gloo")).2
          = Throw e →
        e = c10_Error []) ∧
  (∀ u, (setBackend CUDA GLOO None (with_gloo_on_CPU GLOO "gloo")).2
          = Undefined u →
        u = AbsentOptionalValue).
Proof.
  split.
  - intros e He.
    by destruct (proj1 (setBackend_outcomes CUDA GLOO (Some 2%positive)
                          (with_gloo_on_CPU GLOO "gloo")) e He).
  - intros u Hu.
    destruct (proj2 (setBackend_outcomes CUDA GLOO None
                       (with_gloo_on_CPU GLOO "gloo"))) with (u := u)
      as [Hau _]; [| |exact Hu|exact Hau].
    + apply setBackend_keeps_registry_live; [apply registry_live_start|].
      intros q [= <-]. eexists. reflexivity.
    + intros q [=].
Defined.

